(** * Research Literature Navigator: the simplified retrieval pipeline

    A shallow embedding of [simple_app.py] (class [SimpleResearchNavigator]
    and the [/query] handler [query_literature]) and of the [/query] handler
    of [web_app.py], together with the properties of chunking, keyword
    search, ranking and answer assembly that the code has.

    Conventions of the embedding:
    - a Python [str] is a [string]; a character is a code point below 256,
      so that [str.split], [str.strip] and [str.lower] are the Python
      functions on Latin-1 text;
    - a Python [set] of words is a [gset string];
    - a Python [int] is a [Z] (a length is a [nat] injected into [Z]);
    - a Python [float] is the rational of [Q] that the double is, and an
      operation on floats is the exact operation followed by the rounding
      [Py.float] to the nearest double. The one exception is the
      similarity of a search result, which is carried as the exact quotient
      of the two set sizes: the double the program holds is its rounding,
      taken where the program adds it or prints it (the rounding keeps the
      order of the quotients, and tells two of them apart as long as a
      question and a chunk have fewer than [2^26] words together);
    - the generation backend (Gemini) is an oracle from the prompt to either
      a text or a raised error, and the handler threads the list of prompts
      sent to it. *)

From Stdlib Require Import Ascii String ZArith QArith Qminmax Qround Qabs Lqa.
From Stdlib Require Import Qpower.
From Stdlib Require Import Sorting.Sorted Permutation.
From stdpp Require Import base gmap sets list strings sorting pretty.

Open Scope string_scope.
Open Scope list_scope.

(** ** Python built-ins used by the program *)

Module Py.

(** [str.isspace] on one character: the code points Python treats as
    white space, below 256. *)
Definition isspace (c : ascii) : bool :=
  let n := nat_of_ascii c in
  ((9 <=? n)%nat && (n <=? 13)%nat)
  || ((28 <=? n)%nat && (n <=? 32)%nat)
  || (n =? 133)%nat || (n =? 160)%nat.

(** Pushes the word under construction, unless it is empty. *)
Definition flush (w : string) (acc : list string) : list string :=
  match w with
  | EmptyString => acc
  | _ => w :: acc
  end.

(** [split_from w s]: the words of [s], the first one prefixed by the
    characters [w] already read. *)
Fixpoint split_from (w : string) (s : string) : list string :=
  match s with
  | EmptyString => flush w []
  | String c s' =>
      if isspace c then flush w (split_from "" s')
      else split_from (w +:+ String c "") s'
  end.

(** [s.split()]: the maximal runs of non-space characters, in order. *)
Definition split (s : string) : list string := split_from "" s.

(** [sep.join(l)]. *)
Definition join (sep : string) (l : list string) : string :=
  String.concat sep l.

(** [s.lower()] on one character: ASCII and Latin-1 capitals. *)
Definition lower_char (c : ascii) : ascii :=
  let n := nat_of_ascii c in
  if ((65 <=? n)%nat && (n <=? 90)%nat)
     || ((192 <=? n)%nat && (n <=? 222)%nat && negb (n =? 215)%nat)
  then ascii_of_nat (n + 32)
  else c.

Fixpoint lower (s : string) : string :=
  match s with
  | EmptyString => EmptyString
  | String c s' => String (lower_char c) (lower s')
  end.

Fixpoint lstrip (s : string) : string :=
  match s with
  | EmptyString => EmptyString
  | String c s' => if isspace c then lstrip s' else s
  end.

Fixpoint rev_string (s : string) : string :=
  match s with
  | EmptyString => EmptyString
  | String c s' => rev_string s' +:+ String c ""
  end.

(** [s.strip()]. *)
Definition strip (s : string) : string :=
  rev_string (lstrip (rev_string (lstrip s))).

(** [len(s)] as a Python integer. *)
Definition len (s : string) : Z := Z.of_nat (String.length s).

(** [l[:k]] for a list: a negative [k] counts from the end. *)
Definition slice_to {A} (l : list A) (k : Z) : list A :=
  if (0 <=? k)%Z then take (Z.to_nat k) l
  else take (Z.to_nat (Z.of_nat (length l) + k)) l.

(** [s[:k]] for a string and a non-negative literal [k]. *)
Definition str_prefix (k : nat) (s : string) : string :=
  String.substring 0 (Nat.min k (String.length s)) s.

(** [a / b] on integers (true division), before it is rounded to a
    double, in lowest terms. The program divides only by a positive
    length. *)
Definition truediv (a b : Z) : Q := Qred (inject_Z a / inject_Z b).

(** [l.sort(key=key, reverse=True)]: the sort is stable, and stays so
    under [reverse=True]: records with equal keys keep their order. It is
    given by insertion, an element going before the first one whose key
    does not exceed its own. *)
Fixpoint insert_desc {A} (key : A → Q) (x : A) (l : list A) : list A :=
  match l with
  | [] => [x]
  | y :: l' =>
      if Qle_bool (key y) (key x) then x :: y :: l'
      else y :: insert_desc key x l'
  end.

Definition sort_reverse {A} (key : A → Q) (l : list A) : list A :=
  foldr (insert_desc key) [] l.

(** Rounding to the nearest integer, ties to even: the rounding of
    [format] on the exact value, and of the arithmetic of doubles. *)
Definition round_half_even (x : Q) : Z :=
  let f := Qfloor x in
  match (x - inject_Z f ?= 1 # 2)%Q with
  | Lt => f
  | Gt => (f + 1)%Z
  | Eq => if Z.even f then f else (f + 1)%Z
  end.

Definition pow2 (z : Z) : Q := Qpower 2 z.

(** The binary exponent [e] of a rational that is not zero:
    [2^e <= |x| < 2^(e+1)]. The difference of the bit lengths of the
    numerator and of the denominator is [e] or [e + 1]. *)
Definition float_exponent (x : Q) : Z :=
  let c := (Z.log2 (Z.abs (Qnum x)) - Z.log2 (Z.pos (Qden x)))%Z in
  if Qle_bool (pow2 c) (Qabs x) then c else (c - 1)%Z.

(** The double (IEEE 754 binary64) nearest to [x], ties to even: [x] is
    rounded to a multiple of the unit in the last place of its binade, 52
    binary digits below its exponent, and of [2^-1074] below the normal
    range. Overflow is not modelled: the numbers of the program stay
    below 8. *)
Definition float (x : Q) : Q :=
  if Qeq_bool x 0 then 0%Q
  else
    let ulp := pow2 (Z.max (float_exponent x) (-1022) - 52) in
    Qred (inject_Z (round_half_even (x / ulp)) * ulp).

(** [sum(l)] of doubles, from the integer [0]: the additions are made from
    left to right, each one rounded. (From CPython 3.12 on, [sum] also
    carries a compensation term, which can change the last binary digit of
    a sum of three numbers or more.) *)
Definition sum (l : list Q) : Q :=
  fold_left (λ acc x, float (acc + x)%Q) l 0%Q.

Fixpoint zeros (n : nat) : string :=
  match n with
  | O => ""
  | S n' => String "0" (zeros n')
  end.

(** [f"{x:.df}"] on the double [x]: [d] digits after the point, the
    exact value of the double being rounded, ties to even. *)
Definition format_f (d : nat) (x : Q) : string :=
  let scale := (10 ^ Z.of_nat d)%Z in
  let n := round_half_even (Qabs x * inject_Z scale) in
  let frac := pretty (n mod scale)%Z in
  (if Qlt_le_dec x 0%Q then "-" else "")
  +:+ pretty (n / scale)%Z +:+ "."
  +:+ zeros (d - String.length frac) +:+ frac.

End Py.

(** ** The navigator of [simple_app.py] *)

Module SimpleApp.

(** One entry of [self.documents]. *)
Record document := Document {
  filename : string;
  title : string;
  content : string;
  chunks : list string
}.

(** [create_chunks]: the loop state is
    [(chunks, current_chunk, current_size)]. *)
Definition chunk_state : Type := list string * list string * Z.

Definition chunk_step (chunk_size : Z) (st : chunk_state) (word : string)
  : chunk_state :=
  let '(chunks, current_chunk, current_size) := st in
  let current_chunk := current_chunk ++ [word] in
  let current_size := (current_size + (Py.len word + 1))%Z in
  if (chunk_size <=? current_size)%Z
  then (chunks ++ [Py.join " " current_chunk], [], 0%Z)
  else (chunks, current_chunk, current_size).

Definition create_chunks (content : string) (chunk_size : Z) : list string :=
  let words := Py.split content in
  let '(chunks, current_chunk, _) :=
    fold_left (chunk_step chunk_size) words ([], [], 0%Z) in
  match current_chunk with
  | [] => chunks
  | _ => chunks ++ [Py.join " " current_chunk]
  end.

(** The default of the [chunk_size] argument. *)
Definition default_chunk_size : Z := 800.

(** The generation backend: [model.generate_content(prompt)] followed by
    [response.text] either gives a text or raises. *)
Inductive generation := Generated (text : string) | Raised (err : string).

Definition backend : Type := string → generation.

(** [self]: [model] is [None] when Gemini could not be initialised. *)
Record navigator := Navigator {
  model : option backend;
  documents : list document
}.

(** The file [data/documents.json], and whether it can be written. *)
Record filesystem := Filesystem {
  documents_json : option (list document);
  writable : bool
}.

(** [save_documents]: a failed write is logged and swallowed. *)
Definition save_documents (nav : navigator) (fs : filesystem) : filesystem :=
  if writable fs
  then {| documents_json := Some (documents nav); writable := true |}
  else fs.

Definition add_document (nav : navigator) (fs : filesystem)
    (filename title content : string) : document * navigator * filesystem :=
  let doc := {| filename := filename; title := title; content := content;
                chunks := create_chunks content default_chunk_size |} in
  let nav := {| model := model nav; documents := documents nav ++ [doc] |} in
  (doc, nav, save_documents nav fs).

(** The counts shown by [index] and [get_stats]. *)
Definition unique_documents (nav : navigator) : nat :=
  length (documents nav).

Definition total_chunks (nav : navigator) : nat :=
  sum_list (map (λ doc, length (chunks doc)) (documents nav)).

(** One entry of the list returned by [search_documents]. *)
Record result := Result {
  r_title : string;
  r_content : string;
  similarity : Q
}.

(** The double under ['similarity']: the quotient, rounded. *)
Definition similarity_float (r : result) : Q := Py.float (similarity r).

(** [set(text.lower().split())]. *)
Definition word_set (text : string) : gset string :=
  list_to_set (Py.split (Py.lower text)).

(** The body of the inner loop of [search_documents]. *)
Definition score_chunk (query_words : gset string) (doc : document)
    (results : list result) (chunk : string) : list result :=
  let chunk_words := word_set chunk in
  let overlap := size (query_words ∩ chunk_words) in
  if (0 <? overlap)%nat then
    results ++ [ {| r_title := title doc; r_content := chunk;
                    similarity :=
                      Py.truediv (Z.of_nat overlap)
                        (Z.of_nat (size (query_words ∪ chunk_words))) |} ]
  else results.

Definition search_documents (nav : navigator) (query : string) (top_k : Z)
  : list result :=
  let query_words := word_set query in
  let results :=
    fold_left (λ results doc,
                 fold_left (score_chunk query_words doc) (chunks doc) results)
              (documents nav) [] in
  Py.slice_to (Py.sort_reverse similarity results) top_k.

(** The default of the [top_k] argument. *)
Definition default_top_k : Z := 3.

Definition nl : string := String (ascii_of_nat 10) "".

Definition context_of (context_results : list result) : string :=
  Py.join (nl +:+ nl)
    (map (λ result, "Source: " +:+ r_title result +:+ nl
                    +:+ "Content: " +:+ r_content result)
         context_results).

Definition prompt_of (question context : string) : string :=
  "You are a research assistant. Based on the research papers provided, answer the question clearly and accurately."
  +:+ nl +:+ nl +:+ "Question: " +:+ question
  +:+ nl +:+ nl +:+ "Research Papers Context:" +:+ nl +:+ context
  +:+ nl +:+ nl +:+ "Instructions:"
  +:+ nl +:+ "1. Provide a clear, evidence-based answer"
  +:+ nl +:+ "2. Reference specific papers when making claims"
  +:+ nl +:+ "3. If information is insufficient, state what's missing"
  +:+ nl +:+ "4. Use academic language"
  +:+ nl +:+ nl +:+ "Answer:".

(** [generate_answer] returns the answer text together with the prompts
    it sent to the backend. Any error raised inside the [try] becomes the
    returned text. *)
Definition generate_answer (nav : navigator) (question : string)
    (context_results : list result) : string * list string :=
  match model nav with
  | None => ("Gemini model not available. Please check API key.", [])
  | Some m =>
      let prompt := prompt_of question (context_of context_results) in
      match m prompt with
      | Generated text =>
          (match text with
           | EmptyString => "No response generated."
           | _ => text
           end, [prompt])
      | Raised err => ("Error generating answer: " +:+ err, [prompt])
      end
  end.

(** The body of a [POST /query]: either it cannot be read as a JSON
    object with a string under ['question'] (reading it raises [err]), or
    it is an object whose ['question'] key may be absent. *)
Inductive request := Unreadable (err : string) | Ask (question : option string).

Record source := Source {
  s_title : string;
  s_section : string;
  s_similarity : string;
  s_content : string
}.

Record payload := Payload {
  answer : string;
  sources : list source;
  confidence : string
}.

(** [jsonify(...)] with status 200, or [jsonify({'error': ...}), status]. *)
Inductive response := Reply (body : payload) | Failure (status : Z) (error : string).

Definition source_of (result : result) : source :=
  {| s_title := r_title result;
     s_section := "Content";
     s_similarity := Py.format_f 3 (similarity_float result);
     s_content := Py.str_prefix 200 (r_content result) +:+ "..." |}.

(** Lines 197-199: the confidence before it is printed. *)
Definition confidence_score (search_results : list result) : Q :=
  let avg_similarity :=
    Py.float (Py.sum (map similarity_float search_results)
              / inject_Z (Z.of_nat (length search_results)))%Q in
  Qmin (Py.float (avg_similarity * (3 # 2))%Q) 1%Q.

Definition no_evidence : payload :=
  {| answer := "No relevant information found. Please upload some PDF documents first.";
     sources := [];
     confidence := "0.00" |}.

(** [query_literature] returns the response together with the prompts
    sent to the generation backend while handling the request. *)
Definition query_literature (nav : navigator) (req : request)
  : response * list string :=
  match req with
  | Unreadable err => (Failure 500 ("Error processing query: " +:+ err), [])
  | Ask field =>
      let question := Py.strip (default "" field) in
      match question with
      | EmptyString => (Failure 400 "Please provide a question", [])
      | _ =>
          let search_results := search_documents nav question 5 in
          match search_results with
          | [] => (Reply no_evidence, [])
          | _ =>
              let '(answer, sent) :=
                generate_answer nav question search_results in
              let sources := map source_of search_results in
              let confidence :=
                Py.format_f 2 (confidence_score search_results) in
              (Reply {| answer := answer; sources := sources;
                        confidence := confidence |}, sent)
          end
      end
  end.

End SimpleApp.


(** ** The [/query] handler of [web_app.py] *)

Module WebApp.
Import SimpleApp.

(** What the handler reads of one retrieval result: [chunk.content],
    [chunk.section_type.value], [document_metadata.title] and
    [similarity_score]. The classes are declared outside the sources. *)
Record retrieval_result := RetrievalResult {
  chunk_content : string;
  section_type : string;
  document_title : string;
  similarity_score : Q
}.

(** [SectionAwareRetriever.retrieve] is not among the sources: the handler
    is given it as a parameter, and it returns a list or raises. *)
Inductive retrieval :=
  Retrieved (results : list retrieval_result) | RetrieveRaised (err : string).

Definition retriever : Type := string → Z → retrieval.

(** [nav_app]: the retriever and the [model] of its [SimpleGeminiHandler]. *)
Record web_app := ResearchNavigatorWebApp {
  retrieve : retriever;
  gemini_model : option backend
}.

Definition prompt_of (question context : string) : string :=
  "You are a research assistant. Based on the following research context, answer the question clearly and accurately."
  +:+ nl +:+ nl +:+ "Question: " +:+ question
  +:+ nl +:+ nl +:+ "Research Context:" +:+ nl +:+ context
  +:+ nl +:+ nl +:+ "Instructions:"
  +:+ nl +:+ "1. Provide a clear, evidence-based answer"
  +:+ nl +:+ "2. Reference specific details from the context"
  +:+ nl +:+ "3. If information is insufficient, state what's missing"
  +:+ nl +:+ "4. Use academic language"
  +:+ nl +:+ nl +:+ "Answer:".

(** [SimpleGeminiHandler.generate_answer]. *)
Definition generate_answer (m : option backend) (question context : string)
  : string * list string :=
  match m with
  | None => ("Gemini model not available. Please check API key.", [])
  | Some m =>
      let prompt := prompt_of question context in
      match m prompt with
      | Generated text =>
          (match text with
           | EmptyString => "No response generated."
           | _ => text
           end, [prompt])
      | Raised err => ("Error generating answer: " +:+ err, [prompt])
      end
  end.

(** The confidence is the number [0.0] on one path and a printed string on
    the other. *)
Inductive scalar := Num (x : Q) | Str (s : string).

Record payload := Payload {
  answer : string;
  sources : list source;
  confidence : scalar
}.

Inductive response := Reply (body : payload) | Failure (status : Z) (error : string).

Definition source_of (result : retrieval_result) : source :=
  {| s_title := document_title result;
     s_section := section_type result;
     s_similarity := Py.format_f 3 (Py.float (similarity_score result));
     s_content := Py.str_prefix 200 (chunk_content result) +:+ "..." |}.

Definition context_part (i : nat) (result : retrieval_result) : string :=
  "Source " +:+ pretty (i + 1)%nat +:+ ": " +:+ chunk_content result.

(** Lines 157-159: the confidence before it is printed. The score of the
    retriever is read as a double, and [1.2] is the double nearest to
    6/5. *)
Definition confidence_score (results : list retrieval_result) : Q :=
  let avg_similarity :=
    Py.float (Py.sum (map (λ r, Py.float (similarity_score r)) results)
              / inject_Z (Z.of_nat (length results)))%Q in
  Qmin (Py.float (avg_similarity * Py.float (6 # 5))%Q) 1%Q.

Definition no_evidence : payload :=
  {| answer := "No relevant information found in the document collection.";
     sources := [];
     confidence := Num 0 |}.

Definition query_literature (nav_app : option web_app) (req : request)
  : response * list string :=
  match req with
  | Unreadable err => (Failure 500 ("Error processing query: " +:+ err), [])
  | Ask field =>
      let question := Py.strip (default "" field) in
      match question with
      | EmptyString => (Failure 400 "Please provide a question", [])
      | _ =>
          match nav_app with
          | None => (Failure 500 "System not initialized", [])
          | Some app =>
              match retrieve app question 5%Z with
              | RetrieveRaised err =>
                  (Failure 500 ("Error processing query: " +:+ err), [])
              | Retrieved [] => (Reply no_evidence, [])
              | Retrieved results =>
                  let context_parts := imap context_part results in
                  let sources := map source_of results in
                  let context := Py.join (nl +:+ nl) context_parts in
                  let '(answer, sent) :=
                    generate_answer (gemini_model app) question context in
                  let confidence := confidence_score results in
                  (Reply {| answer := answer; sources := sources;
                            confidence := Str (Py.format_f 2 confidence) |},
                   sent)
              end
          end
      end
  end.

End WebApp.

(** ** Vocabulary of the properties *)

(** No character of the string is white space. *)
Fixpoint nospace (s : string) : bool :=
  match s with
  | EmptyString => true
  | String c s' => negb (Py.isspace c) && nospace s'
  end.

(** What [split] produces: non-empty runs free of white space. *)
Definition is_word (w : string) : Prop := w ≠ "" ∧ nospace w = true.

(** The size the loop of [create_chunks] accumulates for a run of words:
    each word counts for its length plus one. *)
Fixpoint wsize (ws : list string) : Z :=
  match ws with
  | [] => 0
  | w :: ws' => Py.len w + 1 + wsize ws'
  end%Z.

(** A group the loop has emitted: it reached the target with its last
    word and was below it before. *)
Definition closed (chunk_size : Z) (g : list string) : Prop :=
  ∃ g' w, g = g' ++ [w]
          ∧ (g' = [] ∨ (wsize g' < chunk_size)%Z)
          ∧ (chunk_size ≤ wsize g)%Z.

(** The loop invariant, after the words [done]. *)
Definition chunk_inv (chunk_size : Z) (done : list string) (st : SimpleApp.chunk_state)
  : Prop :=
  ∃ groups,
    st.1.1 = map (Py.join " ") groups
    ∧ concat groups ++ st.1.2 = done
    ∧ st.2 = wsize st.1.2
    ∧ Forall (closed chunk_size) groups
    ∧ (st.1.2 = [] ∨ (wsize st.1.2 < chunk_size)%Z).

(** [score query_words doc chunk]: what one pass of the inner loop of
    [search_documents] adds to [results]. *)
Definition score (query_words : gset string) (doc : SimpleApp.document)
    (chunk : string) : list SimpleApp.result :=
  SimpleApp.score_chunk query_words doc [] chunk.

(** The list [results] of [search_documents] before it is sorted. *)
Definition candidates (query_words : gset string)
    (docs : list SimpleApp.document) : list SimpleApp.result :=
  flat_map (λ doc, flat_map (score query_words doc) (SimpleApp.chunks doc)) docs.

(** The number of words a chunk shares with the query. *)
Definition overlap_of (query chunk : string) : nat :=
  size (SimpleApp.word_set query ∩ SimpleApp.word_set chunk).

(** A result together with the place it comes from: the position of the
    document in [documents] and of the chunk in its [chunks]. *)
Record hit := Hit {
  doc_index : nat;
  chunk_index : nat;
  hit_result : SimpleApp.result
}.

Definition hit_key (h : hit) : Q := SimpleApp.similarity (hit_result h).

Fixpoint chunk_hits (query_words : gset string) (i : nat)
    (doc : SimpleApp.document) (j : nat) (cs : list string) : list hit :=
  match cs with
  | [] => []
  | chunk :: cs' =>
      map (Hit i j) (score query_words doc chunk)
      ++ chunk_hits query_words i doc (S j) cs'
  end.

Fixpoint doc_hits (query_words : gset string) (i : nat)
    (docs : list SimpleApp.document) : list hit :=
  match docs with
  | [] => []
  | doc :: docs' =>
      chunk_hits query_words i doc 0 (SimpleApp.chunks doc)
      ++ doc_hits query_words (S i) docs'
  end.

(** [search_documents] with every result tagged by its place. *)
Definition search_hits (nav : SimpleApp.navigator) (query : string)
    (top_k : Z) : list hit :=
  Py.slice_to
    (Py.sort_reverse hit_key
       (doc_hits (SimpleApp.word_set query) 0 (SimpleApp.documents nav)))
    top_k.

(** Earlier in the collection: an earlier document, or the same document
    and a smaller chunk position. *)
Definition earlier (a b : hit) : Prop :=
  (doc_index a < doc_index b)%nat
  ∨ (doc_index a = doc_index b ∧ (chunk_index a < chunk_index b)%nat).

(** Higher key first, and on equal keys the order [tie]. *)
Definition tie_ranked {A} (key : A → Q) (tie : A → A → Prop) (a b : A) : Prop :=
  (key b < key a)%Q ∨ (key a == key b ∧ tie a b).

(** The order of the returned list: higher similarity first, and on equal
    similarity the earlier place first. *)
Definition ranked_before : hit → hit → Prop := tie_ranked hit_key earlier.

(** The order with ties broken by chunk position first and by document
    next. *)
Definition position_first (a b : hit) : Prop :=
  (hit_key b < hit_key a)%Q
  ∨ (hit_key a == hit_key b
     ∧ ((chunk_index a < chunk_index b)%nat
        ∨ (chunk_index a = chunk_index b ∧ (doc_index a ≤ doc_index b)%nat))).

(** A hit of document [i] from position [j] on points at its chunk. *)
Definition placed (doc : SimpleApp.document) (cs : list string) (i j : nat) (h : hit)
  : Prop :=
  doc_index h = i ∧ (j ≤ chunk_index h)%nat
  ∧ cs !! (chunk_index h - j)%nat = Some (SimpleApp.r_content (hit_result h))
  ∧ SimpleApp.r_title (hit_result h) = SimpleApp.title doc.

(** The chunks of the collection that share a word with the query, with
    their documents, in collection order. *)
Definition matches (query : string) (docs : list SimpleApp.document)
  : list (SimpleApp.document * string) :=
  flat_map
    (λ doc,
       map (pair doc)
         (List.filter (λ chunk, (0 <? overlap_of query chunk)%nat)
            (SimpleApp.chunks doc)))
    docs.

(** The result the search builds for a matching chunk. *)
Definition result_of (query : string) (m : SimpleApp.document * string)
  : SimpleApp.result :=
  {| SimpleApp.r_title := SimpleApp.title m.1;
     SimpleApp.r_content := m.2;
     SimpleApp.similarity :=
       Py.truediv (Z.of_nat (overlap_of query m.2))
         (Z.of_nat (size (SimpleApp.word_set query ∪ SimpleApp.word_set m.2))) |}.

(** The arithmetic mean and the clamp to the unit interval. *)
Definition mean (l : list Q) : Q :=
  (fold_right Qplus 0 l / inject_Z (Z.of_nat (length l)))%Q.

Definition clamp01 (x : Q) : Q := Qmax 0 (Qmin x 1).

(** A bound on the rounding of one operation whose exact result lies
    between -16 and 16: [2^-48]. *)
Definition float_unit : Q := 1 # 281474976710656.

(** How far a printed confidence can be from the exact clamped scaled
    mean: half a unit of the second decimal, and the rounding of the
    operations that compute it. *)
Definition print_tolerance : Q := (1 # 200) + 24 * float_unit.

(** Reading a printed number back: an optional sign, digits, a point,
    digits. *)
Definition digit_value (c : ascii) : option Z :=
  let n := nat_of_ascii c in
  if ((48 <=? n)%nat && (n <=? 57)%nat)%bool
  then Some (Z.of_nat (n - 48)) else None.

Fixpoint read_digits (s : string) (acc : Z) : option Z :=
  match s with
  | EmptyString => Some acc
  | String c s' =>
      match digit_value c with
      | Some d => read_digits s' (10 * acc + d)%Z
      | None => None
      end
  end.

Fixpoint split_point (s : string) : option (string * string) :=
  match s with
  | EmptyString => None
  | String c s' =>
      if Ascii.eqb c "." then Some (EmptyString, s')
      else match split_point s' with
           | Some (whole, frac) => Some (String c whole, frac)
           | None => None
           end
  end.

Definition read_unsigned (s : string) : option Q :=
  match split_point s with
  | Some (whole, frac) =>
      if (String.eqb whole "" || String.eqb frac "")%bool then None
      else
        match read_digits whole 0, read_digits frac 0 with
        | Some a, Some b =>
            Some (Qred (inject_Z a
                        + inject_Z b
                          / inject_Z (10 ^ Z.of_nat (String.length frac))))
        | _, _ => None
        end
  | None => None
  end.

(** A digit, a point and two digits. *)
Definition is_digit (c : ascii) : bool :=
  match digit_value c with Some _ => true | None => false end.

Definition two_decimal (s : string) : bool :=
  match s with
  | String a (String "." (String b (String c EmptyString))) =>
      is_digit a && is_digit b && is_digit c
  | _ => false
  end.

Definition read_fixed (s : string) : option Q :=
  match s with
  | String "-" s' => option_map (λ v, Qred (- v)) (read_unsigned s')
  | _ => read_unsigned s
  end.

(** ** Running examples *)

Module Demo.
Import SimpleApp.

Definition echo : backend := λ prompt, Generated "It is about retrieval.".
Definition broken : backend := λ prompt, Raised "quota exceeded".

Definition empty_nav (m : option backend) : navigator :=
  {| model := m; documents := [] |}.
Definition disk : filesystem :=
  {| documents_json := None; writable := true |}.

Definition after_a (m : option backend) : navigator :=
  (add_document (empty_nav m) disk "a.pdf" "a"
     "Retrieval augmented generation grounds answers").1.2.
(** A text whose first chunk closes on a long word, at the default size:
    159 words of four letters, one of ten, and a last one. *)
Definition long_text : string :=
  Py.join " " (replicate 159 "abcd" ++ ["abcdefghij"; "kl"]).

Definition after_ab (m : option backend) : navigator :=
  (add_document (after_a m) disk "b.pdf" "b"
     "Dense retrieval with transformers").1.2.
(** A stand-in for the retriever of the web application. *)
Definition found : list WebApp.retrieval_result :=
  [ {| WebApp.chunk_content := "Retrieval augmented generation grounds answers";
       WebApp.section_type := "abstract";
       WebApp.document_title := "a";
       WebApp.similarity_score := 4 # 5 |};
    {| WebApp.chunk_content := "Dense retrieval with transformers";
       WebApp.section_type := "methods";
       WebApp.document_title := "b";
       WebApp.similarity_score := 1 # 2 |} ].

Definition web (results : list WebApp.retrieval_result) : WebApp.web_app :=
  {| WebApp.retrieve := λ question top_k, WebApp.Retrieved results;
     WebApp.gemini_model := Some echo |}.

(** Two documents whose matching chunks tie: the second chunk of the first
    document and the first chunk of the second. *)
Definition tie_text : string := Py.join " " (replicate 200 "foo" ++ ["hello"]).

Definition tie_nav : navigator :=
  let nav1 := (add_document (empty_nav None) disk "a.pdf" "a" tie_text).1.2 in
  (add_document nav1 disk "b.pdf" "b" "hello").1.2.

(** One chunk of twenty words, eleven of which a question can share. *)
Definition twenty_nav (m : option backend) : navigator :=
  (add_document (empty_nav m) disk "t.pdf" "t"
     "a b c d e f g h i j k l m n o p q r s t").1.2.

Definition eleven : string := "a b c d e f g h i j k".

(** One chunk of eighty words. *)
Definition eighty_nav : navigator :=
  (add_document (empty_nav (Some echo)) disk "e.pdf" "e"
     (Py.join " " (map pretty (seq 0 80)))).1.2.

(** A retriever that finds one chunk, with the score 1/16. *)
Definition sixteenth : list WebApp.retrieval_result :=
  [ {| WebApp.chunk_content := "Dense retrieval with transformers";
       WebApp.section_type := "methods";
       WebApp.document_title := "b";
       WebApp.similarity_score := 1 # 16 |} ].

Definition tie_hits : list hit :=
  [ {| doc_index := 0; chunk_index := 1;
       hit_result := {| r_title := "a"; r_content := "hello";
                        similarity := 1 |} |};
    {| doc_index := 1; chunk_index := 0;
       hit_result := {| r_title := "b"; r_content := "hello";
                        similarity := 1 |} |} ].
End Demo.


(** ** The other routes of [simple_app.py] *)

(** The string methods the upload route uses. *)
Module PyStr.

(** [s.endswith(suffix)]. *)
Definition endswith (s suffix : string) : bool :=
  let n := String.length s in
  let m := String.length suffix in
  (m <=? n)%nat && String.eqb (String.substring (n - m) m s) suffix.

(** [s.replace(old, new)] for a non-empty [old]: occurrences are replaced
    from the left and do not overlap. [skip] counts the characters of an
    occurrence still to be passed over. *)
Fixpoint replace_from (old new : string) (skip : nat) (s : string) : string :=
  match s with
  | EmptyString => EmptyString
  | String c s' =>
      match skip with
      | S skip' => replace_from old new skip' s'
      | O =>
          if String.prefix old s
          then new +:+ replace_from old new (String.length old - 1) s'
          else String c (replace_from old new 0 s')
      end
  end.

Definition replace (s old new : string) : string := replace_from old new 0 s.

End PyStr.

Module SimpleAppRoutes.
Import SimpleApp.



(** The JSON object of [get_stats]. *)
Record stats := Stats {
  st_unique_documents : nat;
  st_total_chunks : nat;
  section_distribution : gmap string nat
}.

Definition get_stats (nav : navigator) : stats :=
  let total_chunks := total_chunks nav in
  {| st_unique_documents := length (documents nav);
     st_total_chunks := total_chunks;
     section_distribution :=
       if (0 <? total_chunks)%nat then {[ "content" := total_chunks ]} else ∅ |}.

(** What the upload route works on: the navigator, [documents.json], the
    files written under [papers_dir], keyed by the name they are saved
    under, and the error [file.save] raises, if it does. *)
Record site := Site {
  site_nav : navigator;
  site_fs : filesystem;
  papers : gmap string string;
  save_error : option string
}.

(** [request.files]: no ['file'] part, or a part with its name and bytes. *)
Inductive upload := NoFile | File (filename : string) (data : string).

(** What reading the saved file with PyPDF2 gives: the text of each page,
    or the import fails, or the reader raises. *)
Inductive extraction :=
  Pages (texts : list string) | NotInstalled | ExtractRaised (err : string).

Definition extractor : Type := string → extraction.

Inductive upload_response :=
  Uploaded (message title : string) (chunks : nat)
| UploadFailure (status : Z) (error : string).

(** [content += page.extract_text() + "\n"] over the pages. *)
Definition pages_text (texts : list string) : string :=
  fold_left (λ content text, content +:+ text +:+ nl) texts "".

Definition upload_document (extract : extractor) (st : site) (u : upload)
  : upload_response * site :=
  match u with
  | NoFile => (UploadFailure 400 "No file provided", st)
  | File filename data =>
      if String.eqb filename ""
         || negb (PyStr.endswith (Py.lower filename) ".pdf")
      then (UploadFailure 400 "Please select a PDF file", st)
      else
        match save_error st with
        | Some err =>
            (UploadFailure 500 ("Error uploading document: " +:+ err), st)
        | None =>
            let st := {| site_nav := site_nav st; site_fs := site_fs st;
                         papers := <[filename := data]> (papers st);
                         save_error := None |} in
            let add content :=
              let '(doc, nav, fs) :=
                add_document (site_nav st) (site_fs st) filename
                  (PyStr.replace filename ".pdf" "") content in
              (Uploaded ("Successfully processed " +:+ filename)
                 (title doc) (length (chunks doc)),
               {| site_nav := nav; site_fs := fs; papers := papers st;
                  save_error := None |}) in
            match extract data with
            | Pages texts => add (pages_text texts)
            | NotInstalled =>
                add ("Document uploaded: " +:+ filename
                     +:+ ". Please install PyPDF2 for text extraction.")
            | ExtractRaised err =>
                (UploadFailure 500 ("Error uploading document: " +:+ err), st)
            end
        end
  end.

End SimpleAppRoutes.

(** ** Vocabulary of the further properties *)

(** Every character of the string is white space. *)
Fixpoint allspace (s : string) : bool :=
  match s with
  | EmptyString => true
  | String c s' => Py.isspace c && allspace s'
  end.

(** No character of the string is a dot. *)
Fixpoint nodot (s : string) : bool :=
  match s with
  | EmptyString => true
  | String c s' => negb (Ascii.eqb c ".") && nodot s'
  end.


(** [t] occurs in [s]. *)
Definition contains (s t : string) : Prop :=
  ∃ before after, s = before +:+ t +:+ after.

(** The block of the prompt that carries one piece of evidence. *)
Definition evidence_block (r : SimpleApp.result) : string :=
  "Source: " +:+ SimpleApp.r_title r +:+ SimpleApp.nl
  +:+ "Content: " +:+ SimpleApp.r_content r.


Module DemoRoutes.
Import SimpleApp SimpleAppRoutes.

Definition two_pages : extractor := λ data, Pages ["Dense retrieval"; "with transformers"].
Definition failing : extractor := λ data, ExtractRaised "EOF marker not found".

Definition fresh : site :=
  {| site_nav := Demo.empty_nav None; site_fs := Demo.disk;
     papers := ∅; save_error := None |}.


End DemoRoutes.

(** ** Words, [split] and [join] *)

Section Strings.

Lemma str_app_cons (c : ascii) (s t : string) :
  String c s +:+ t = String c (s +:+ t).
Proof. done. Qed.

Lemma str_app_nil_l (s : string) : "" +:+ s = s.
Proof. done. Qed.

Lemma str_app_nil_r (s : string) : s +:+ "" = s.
Proof.
  induction s as [|c s IH]; [done|]. by rewrite str_app_cons, IH.
Qed.

Lemma str_app_assoc (s t u : string) : (s +:+ t) +:+ u = s +:+ (t +:+ u).
Proof.
  induction s as [|c s IH]; [done|]. by rewrite !str_app_cons, IH.
Qed.

Lemma str_length_app (s t : string) :
  String.length (s +:+ t) = (String.length s + String.length t)%nat.
Proof.
  induction s as [|c s IH]; [done|].
  rewrite str_app_cons. simpl. by rewrite IH.
Qed.

Lemma str_app_nonempty_l (s t : string) : s ≠ "" → s +:+ t ≠ "".
Proof. destruct s; [done|]. by rewrite str_app_cons. Qed.

Lemma nospace_app (s t : string) :
  nospace (s +:+ t) = nospace s && nospace t.
Proof.
  induction s as [|c s IH]; [done|].
  rewrite str_app_cons. simpl. by rewrite IH, andb_assoc.
Qed.

Lemma flush_words (w : string) (acc : list string) :
  nospace w = true → Forall is_word acc → Forall is_word (Py.flush w acc).
Proof.
  intros Hw Hacc. destruct w as [|c w]; simpl; [done|].
  constructor; [split; [discriminate | done] | done].
Qed.

Lemma split_from_words (s w : string) :
  nospace w = true → Forall is_word (Py.split_from w s).
Proof.
  revert w. induction s as [|c s IH]; intros w Hw; simpl.
  - by apply flush_words.
  - destruct (Py.isspace c) eqn:Hc.
    + apply flush_words; [done | by apply IH].
    + apply IH. rewrite nospace_app, Hw. simpl. by rewrite Hc.
Qed.

Lemma split_words (s : string) : Forall is_word (Py.split s).
Proof. by apply split_from_words. Qed.

Lemma split_from_app (u w s : string) :
  nospace u = true →
  Py.split_from w (u +:+ s) = Py.split_from (w +:+ u) s.
Proof.
  revert w. induction u as [|c u IH]; intros w Hu.
  - by rewrite str_app_nil_r.
  - simpl in Hu. apply andb_prop in Hu as [Hc Hu].
    apply negb_true_iff in Hc. rewrite str_app_cons. simpl.
    rewrite Hc, IH by done.
    by rewrite str_app_assoc.
Qed.

Lemma join_cons (sep x y : string) (l : list string) :
  Py.join sep (x :: y :: l) = x +:+ sep +:+ Py.join sep (y :: l).
Proof. done. Qed.

(** Splitting the words joined by single spaces gives the words back. *)
Lemma split_join (ws : list string) :
  Forall is_word ws → Py.split (Py.join " " ws) = ws.
Proof.
  unfold Py.split. induction 1 as [|w ws [Hne Hw] Hws IH]; [done|].
  destruct ws as [|w' ws].
  - change (Py.join " " [w]) with w. rewrite <- (str_app_nil_r w) at 1.
    rewrite split_from_app, str_app_nil_l by done. simpl. by destruct w.
  - rewrite join_cons, split_from_app, str_app_nil_l by done.
    rewrite str_app_cons, str_app_nil_l.
    change (Py.split_from w (String " " (Py.join " " (w' :: ws)))) with
      (Py.flush w (Py.split_from "" (Py.join " " (w' :: ws)))).
    rewrite IH. by destruct w.
Qed.

Lemma join_app (sep : string) (a b : list string) :
  a ≠ [] → b ≠ [] →
  Py.join sep (a ++ b) = Py.join sep a +:+ sep +:+ Py.join sep b.
Proof.
  intros Ha Hb. induction a as [|x a IH]; [done|].
  destruct a as [|y a].
  - destruct b; [done|]. done.
  - change ((x :: y :: a) ++ b) with (x :: y :: (a ++ b)).
    rewrite !join_cons. change (y :: a ++ b) with ((y :: a) ++ b).
    rewrite IH by done. by rewrite !str_app_assoc.
Qed.

(** Joining joined groups is joining their concatenation. *)
Lemma join_concat (groups : list (list string)) :
  Forall (λ g, g ≠ []) groups →
  Py.join " " (map (Py.join " ") groups) = Py.join " " (concat groups).
Proof.
  induction 1 as [|g groups Hg Hgs IH]; [done|].
  destruct groups as [|g' groups].
  - simpl. by rewrite app_nil_r.
  - change (map (Py.join " ") (g :: g' :: groups)) with
      (Py.join " " g :: Py.join " " g' :: map (Py.join " ") groups).
    rewrite join_cons.
    change (Py.join " " g' :: map (Py.join " ") groups) with
      (map (Py.join " ") (g' :: groups)).
    rewrite IH. change (concat (g :: g' :: groups)) with
      (g ++ concat (g' :: groups)).
    rewrite join_app; [done | done |].
    inversion Hgs; subst. simpl. by destruct g'.
Qed.

Lemma join_nonempty (ws : list string) :
  ws ≠ [] → Forall is_word ws → Py.join " " ws ≠ "".
Proof.
  intros Hne Hws. destruct ws as [|w ws]; [done|].
  inversion Hws as [|? ? [Hw _] _]; subst.
  destruct ws as [|w' ws]; [done|].
  rewrite join_cons. by apply str_app_nonempty_l.
Qed.

End Strings.

(** ** Chunking *)

Section Chunking.
Import SimpleApp.

Lemma wsize_app (a b : list string) : wsize (a ++ b) = (wsize a + wsize b)%Z.
Proof. induction a as [|w a IH]; simpl; lia. Qed.

Lemma wsize_nonneg (ws : list string) : (0 ≤ wsize ws)%Z.
Proof. induction ws as [|w ws IH]; simpl; unfold Py.len; lia. Qed.

Lemma len_app (s t : string) : Py.len (s +:+ t) = (Py.len s + Py.len t)%Z.
Proof. unfold Py.len. rewrite str_length_app. lia. Qed.

(** A joined run is one character shorter than its accumulated size. *)
Lemma len_join (ws : list string) :
  ws ≠ [] → Py.len (Py.join " " ws) = (wsize ws - 1)%Z.
Proof.
  induction ws as [|w ws IH]; [done|]. intros _.
  destruct ws as [|w' ws].
  - change (Py.join " " [w]) with w. simpl. lia.
  - rewrite join_cons, !len_app, IH by done.
    change (Py.len " ") with 1%Z. simpl. lia.
Qed.

Lemma chunk_inv_init (chunk_size : Z) : chunk_inv chunk_size [] ([], [], 0%Z).
Proof. exists []. simpl. repeat split; auto. Qed.

Lemma chunk_inv_step (chunk_size : Z) (done : list string)
    (st : chunk_state) (w : string) :
  chunk_inv chunk_size done st →
  chunk_inv chunk_size (done ++ [w]) (chunk_step chunk_size st w).
Proof.
  destruct st as [[chunks cur] size].
  intros (groups & Hchunks & Hdone & Hsize & Hclosed & Hopen).
  simpl in *. subst chunks done size. unfold chunk_step.
  assert (Hsz : (wsize cur + (Py.len w + 1))%Z = wsize (cur ++ [w])).
  { rewrite wsize_app. simpl. lia. }
  destruct (Z.leb_spec chunk_size (wsize cur + (Py.len w + 1))) as [Hle|Hlt].
  - exists (groups ++ [cur ++ [w]]). simpl.
    rewrite map_app, concat_app. simpl. rewrite !app_nil_r.
    repeat split; auto.
    + by rewrite app_assoc.
    + apply Forall_app. split; [done|]. constructor; [|done].
      exists cur, w. repeat split; [done|lia].
  - exists groups. simpl. repeat split; auto.
    + by rewrite app_assoc.
    + right. lia.
Qed.

Lemma chunk_inv_fold (chunk_size : Z) (ws done : list string)
    (st : chunk_state) :
  chunk_inv chunk_size done st →
  chunk_inv chunk_size (done ++ ws) (fold_left (chunk_step chunk_size) ws st).
Proof.
  revert done st. induction ws as [|w ws IH]; intros done st Hinv; simpl.
  - by rewrite app_nil_r.
  - replace (done ++ w :: ws) with ((done ++ [w]) ++ ws)
      by (by rewrite <- app_assoc).
    by apply IH, chunk_inv_step.
Qed.

(** The shape of the result: the words cut into consecutive groups, all
    closed but possibly the last, each joined by single spaces. *)
Lemma create_chunks_groups (content : string) (chunk_size : Z) :
  ∃ groups rest,
    create_chunks content chunk_size = map (Py.join " ") (groups ++ rest)
    ∧ concat (groups ++ rest) = Py.split content
    ∧ Forall (closed chunk_size) groups
    ∧ (rest = [] ∨ ∃ g, rest = [g] ∧ g ≠ [] ∧ (wsize g < chunk_size)%Z).
Proof.
  unfold create_chunks.
  pose proof (chunk_inv_fold chunk_size (Py.split content) [] _
                (chunk_inv_init chunk_size)) as Hinv.
  destruct (fold_left _ _ _) as [[chunks cur] size].
  destruct Hinv as (groups & Hchunks & Hdone & Hsize & Hclosed & Hopen).
  simpl in *. subst chunks. destruct cur as [|w cur].
  - exists groups, []. rewrite !app_nil_r in *. auto.
  - exists groups, [w :: cur]. rewrite map_app, concat_app. simpl.
    rewrite app_nil_r. repeat split; auto.
    right. exists (w :: cur). repeat split; [done|].
    by destruct Hopen.
Qed.

Lemma closed_nonempty (chunk_size : Z) (g : list string) :
  closed chunk_size g → g ≠ [].
Proof. intros (g' & w & -> & _). by destruct g'. Qed.

Lemma create_chunks_groups_nonempty (groups rest : list (list string))
    (chunk_size : Z) :
  Forall (closed chunk_size) groups →
  (rest = [] ∨ ∃ g, rest = [g] ∧ g ≠ [] ∧ (wsize g < chunk_size)%Z) →
  Forall (λ g, g ≠ []) (groups ++ rest).
Proof.
  intros Hclosed Hrest. apply Forall_app. split.
  - eapply Forall_impl; [done|]. apply closed_nonempty.
  - destruct Hrest as [->|(g & -> & Hg & _)]; [done|]. by constructor.
Qed.

Lemma Forall_concat_inv {A} (P : A → Prop) (ls : list (list A)) :
  Forall P (concat ls) → Forall (Forall P) ls.
Proof.
  induction ls as [|l ls IH]; simpl; [done|].
  rewrite Forall_app. intros [Hl Hls]. constructor; auto.
Qed.

(** Splitting each chunk again gives the groups back. *)
Lemma split_joined_groups (groups : list (list string)) :
  Forall (Forall is_word) groups →
  map Py.split (map (Py.join " ") groups) = groups.
Proof.
  induction 1 as [|g groups Hg Hgs IH]; [done|].
  simpl. by rewrite split_join, IH.
Qed.

End Chunking.

(** ** The stable descending sort and the slice *)

Section Sorting.
Context {A : Type} (key : A → Q).

Lemma insert_desc_perm (x : A) (l : list A) : Py.insert_desc key x l ≡ₚ x :: l.
Proof.
  induction l as [|y l IH]; simpl; [done|].
  destruct (Qle_bool (key y) (key x)); [done|].
  rewrite IH. apply Permutation_swap.
Qed.

Lemma sort_reverse_perm (l : list A) : Py.sort_reverse key l ≡ₚ l.
Proof.
  induction l as [|x l IH]; simpl; [done|].
  by rewrite insert_desc_perm, IH.
Qed.

Lemma sort_reverse_length (l : list A) :
  length (Py.sort_reverse key l) = length l.
Proof. apply Permutation_length, sort_reverse_perm. Qed.

Lemma tie_ranked_key (tie : A → A → Prop) (a b : A) :
  tie_ranked key tie a b → (key b <= key a)%Q.
Proof. intros [H|[H _]]; [by apply Qlt_le_weak | rewrite H; apply Qle_refl]. Qed.

Lemma insert_desc_sorted (tie : A → A → Prop) (x : A) (l : list A) :
  StronglySorted (tie_ranked key tie) l →
  Forall (tie x) l →
  StronglySorted (tie_ranked key tie) (Py.insert_desc key x l).
Proof.
  induction l as [|y l IH]; intros Hl Hx; simpl.
  - repeat constructor.
  - apply StronglySorted_inv in Hl as [Hl Hy].
    destruct (Qle_bool (key y) (key x)) eqn:Hle.
    + apply Qle_bool_iff in Hle.
      constructor; [by constructor|].
      assert (Hkeys : Forall (λ z, (key z <= key x)%Q) (y :: l)).
      { constructor; [done|]. eapply Forall_impl; [exact Hy|].
        intros z Hz. apply tie_ranked_key in Hz. by eapply Qle_trans. }
      apply Forall_forall. intros z Hz.
      rewrite Forall_forall in Hkeys, Hx.
      specialize (Hkeys z Hz). specialize (Hx z Hz).
      destruct (Qlt_le_dec (key z) (key x)) as [Hlt|Hge]; [by left|].
      right. split; [by apply Qle_antisym | done].
    + assert (Hlt : (key x < key y)%Q).
      { apply Qnot_le_lt. intros H%Qle_bool_iff. congruence. }
      apply Forall_cons in Hx as [_ Hx].
      constructor; [by apply IH|].
      rewrite insert_desc_perm. constructor; [by left | done].
Qed.

Lemma sort_reverse_sorted (tie : A → A → Prop) (l : list A) :
  StronglySorted tie l →
  StronglySorted (tie_ranked key tie) (Py.sort_reverse key l).
Proof.
  induction l as [|x l IH]; intros Hl; simpl; [constructor|].
  apply StronglySorted_inv in Hl as [Hl Hx].
  apply insert_desc_sorted; [by apply IH|].
  by rewrite sort_reverse_perm.
Qed.

(** Whatever the order of arrival, the keys come out non-increasing. *)
Lemma sort_reverse_nonincreasing (l : list A) :
  StronglySorted (λ a b, (key b <= key a)%Q) (Py.sort_reverse key l).
Proof.
  induction l as [|x l IH]; simpl; [constructor|].
  set (s := Py.sort_reverse key l) in *. clearbody s. clear l.
  induction s as [|y s IHs]; simpl; [repeat constructor|].
  apply StronglySorted_inv in IH as [Hs Hy].
  destruct (Qle_bool (key y) (key x)) eqn:Hle.
  - apply Qle_bool_iff in Hle. constructor; [by constructor|].
    constructor; [done|]. eapply Forall_impl; [exact Hy|].
    intros z Hz. simpl in Hz. by eapply Qle_trans.
  - assert (Hlt : (key x < key y)%Q).
    { apply Qnot_le_lt. intros H%Qle_bool_iff. congruence. }
    constructor; [by apply IHs|].
    rewrite insert_desc_perm. constructor; [by apply Qlt_le_weak | done].
Qed.

Lemma slice_to_take {B} (l : list B) (k : Z) : ∃ n, Py.slice_to l k = take n l.
Proof. unfold Py.slice_to. destruct (0 <=? k)%Z; eauto. Qed.

Lemma slice_to_subseteq {B} (l : list B) (k : Z) : Py.slice_to l k ⊆ l.
Proof.
  destruct (slice_to_take l k) as [n ->]. intros x Hx.
  rewrite <- (take_drop n l). apply elem_of_app. by left.
Qed.

Lemma take_sorted {B} (R : B → B → Prop) (n : nat) (l : list B) :
  StronglySorted R l → StronglySorted R (take n l).
Proof.
  intros Hl. rewrite <- (take_drop n l) in Hl.
  by apply StronglySorted_app_1_l in Hl.
Qed.

Lemma slice_to_sorted {B} (R : B → B → Prop) (l : list B) (k : Z) :
  StronglySorted R l → StronglySorted R (Py.slice_to l k).
Proof. destruct (slice_to_take l k) as [n ->]. apply take_sorted. Qed.

Lemma slice_to_map {B C} (f : B → C) (l : list B) (k : Z) :
  map f (Py.slice_to l k) = Py.slice_to (map f l) k.
Proof.
  unfold Py.slice_to. rewrite length_map.
  destruct (0 <=? k)%Z; by rewrite <- fmap_take.
Qed.

Lemma slice_to_all {B} (l : list B) (k : Z) :
  (Z.of_nat (length l) ≤ k)%Z → Py.slice_to l k = l.
Proof.
  intros Hk. unfold Py.slice_to.
  destruct (Z.leb_spec 0 k); [|lia]. apply take_ge. lia.
Qed.

Lemma slice_to_length_le {B} (l : list B) (k : Z) :
  (length (Py.slice_to l k) ≤ length l)%nat.
Proof.
  destruct (slice_to_take l k) as [n ->]. rewrite length_take. lia.
Qed.

Lemma slice_to_length_top {B} (l : list B) (k : Z) :
  (0 ≤ k)%Z → (Z.of_nat (length (Py.slice_to l k)) ≤ k)%Z.
Proof.
  intros Hk. unfold Py.slice_to.
  destruct (Z.leb_spec 0 k); [|lia]. rewrite length_take. lia.
Qed.

End Sorting.

Lemma insert_desc_map {A B} (key : A → Q) (f : B → A) (x : B) (l : list B) :
  map f (Py.insert_desc (key ∘ f) x l) = Py.insert_desc key (f x) (map f l).
Proof.
  induction l as [|y l IH]; simpl; [done|].
  destruct (Qle_bool (key (f y)) (key (f x))); simpl; [done | by rewrite IH].
Qed.

Lemma sort_reverse_map {A B} (key : A → Q) (f : B → A) (l : list B) :
  map f (Py.sort_reverse (key ∘ f) l) = Py.sort_reverse key (map f l).
Proof.
  induction l as [|x l IH]; simpl; [done|].
  by rewrite insert_desc_map, IH.
Qed.

(** ** Keyword search *)

Section Search.
Import SimpleApp.

Lemma truediv_unit (a b : Z) :
  (0 < a)%Z → (a ≤ b)%Z → (0 < Py.truediv a b)%Q ∧ (Py.truediv a b <= 1)%Q.
Proof.
  intros Ha Hab. unfold Py.truediv. rewrite Qred_correct.
  assert (Hb : (0 < inject_Z b)%Q) by (unfold Qlt; simpl; lia).
  split.
  - apply Qlt_shift_div_l; [done|]. rewrite Qmult_0_l.
    unfold Qlt; simpl; lia.
  - apply Qle_shift_div_r; [done|]. rewrite Qmult_1_l.
    unfold Qle; simpl; lia.
Qed.

Lemma overlap_le_union (X Y : gset string) : (size (X ∩ Y) ≤ size (X ∪ Y))%nat.
Proof.
  apply subseteq_size. intros x [Hx _]%elem_of_intersection.
  apply elem_of_union. by left.
Qed.

(** The loop body appends at most one result, and only for a chunk that
    shares a word with the query. *)
Lemma score_chunk_app (qw : gset string) (doc : document)
    (results : list result) (chunk : string) :
  score_chunk qw doc results chunk = results ++ score qw doc chunk.
Proof.
  unfold score, score_chunk.
  destruct (0 <? size (qw ∩ word_set chunk))%nat; [done|].
  by rewrite app_nil_r.
Qed.

Lemma score_cases (qw : gset string) (doc : document) (chunk : string) :
  (size (qw ∩ word_set chunk) = 0%nat ∧ score qw doc chunk = [])
  ∨ ((0 < size (qw ∩ word_set chunk))%nat
     ∧ score qw doc chunk =
         [ {| r_title := title doc; r_content := chunk;
              similarity :=
                Py.truediv (Z.of_nat (size (qw ∩ word_set chunk)))
                  (Z.of_nat (size (qw ∪ word_set chunk))) |} ]).
Proof.
  unfold score, score_chunk.
  destruct (Nat.ltb_spec 0 (size (qw ∩ word_set chunk))); [right|left].
  - done.
  - split; [lia | done].
Qed.

(** The divisor of the similarity is positive wherever the division is
    reached: the search cannot divide by zero. *)
Lemma score_divisor_positive (qw : gset string) (chunk : string) :
  (0 < size (qw ∩ word_set chunk))%nat → (0 < size (qw ∪ word_set chunk))%nat.
Proof. pose proof (overlap_le_union qw (word_set chunk)). lia. Qed.

Lemma score_unit (qw : gset string) (doc : document) (chunk : string) :
  Forall (λ r, (0 < similarity r)%Q ∧ (similarity r <= 1)%Q)
    (score qw doc chunk).
Proof.
  destruct (score_cases qw doc chunk) as [[_ ->]|[Hpos ->]]; [done|].
  constructor; [|done]. simpl.
  apply truediv_unit; [lia|].
  pose proof (overlap_le_union qw (word_set chunk)). lia.
Qed.

Lemma fold_chunks (qw : gset string) (doc : document) (cs : list string)
    (results : list result) :
  fold_left (score_chunk qw doc) cs results
  = results ++ flat_map (score qw doc) cs.
Proof.
  revert results. induction cs as [|c cs IH]; intros results; simpl.
  - by rewrite app_nil_r.
  - by rewrite IH, score_chunk_app, <- app_assoc.
Qed.

Lemma fold_documents (qw : gset string) (docs : list document)
    (results : list result) :
  fold_left (λ results doc, fold_left (score_chunk qw doc) (chunks doc) results)
    docs results
  = results ++ candidates qw docs.
Proof.
  revert results. induction docs as [|d docs IH]; intros results; simpl.
  - by rewrite app_nil_r.
  - by rewrite IH, fold_chunks, <- app_assoc.
Qed.

(** The search sorts the candidates and keeps a prefix. *)
Lemma search_documents_eq (nav : navigator) (query : string) (top_k : Z) :
  search_documents nav query top_k
  = Py.slice_to
      (Py.sort_reverse similarity (candidates (word_set query) (documents nav)))
      top_k.
Proof. unfold search_documents. by rewrite fold_documents. Qed.

Lemma candidates_unit (qw : gset string) (docs : list document) :
  Forall (λ r, (0 < similarity r)%Q ∧ (similarity r <= 1)%Q)
    (candidates qw docs).
Proof.
  unfold candidates. induction docs as [|d docs IH]; simpl; [done|].
  apply Forall_app. split; [|done].
  induction (chunks d) as [|c cs IHc]; simpl; [done|].
  apply Forall_app. split; [apply score_unit | done].
Qed.

Lemma search_subseteq (nav : navigator) (query : string) (top_k : Z) :
  search_documents nav query top_k
  ⊆ candidates (word_set query) (documents nav).
Proof.
  rewrite search_documents_eq. intros r Hr.
  apply slice_to_subseteq in Hr. by rewrite sort_reverse_perm in Hr.
Qed.

(** The candidates are the matching chunks, in collection order. *)
Lemma candidates_length (query : string) (docs : list document) :
  length (candidates (word_set query) docs) = length (matches query docs).
Proof.
  unfold candidates, matches.
  induction docs as [|d docs IH]; simpl; [done|].
  rewrite !length_app, IH. f_equal. rewrite length_map.
  induction (chunks d) as [|c cs IHc]; simpl; [done|].
  rewrite length_app, IHc. unfold overlap_of.
  destruct (score_cases (word_set query) d c) as [[H0 ->]|[Hpos ->]].
  - rewrite H0. done.
  - destruct (Nat.ltb_spec 0 (size (word_set query ∩ word_set c)));
      [done | lia].
Qed.

Lemma candidates_matches (query : string) (docs : list document) :
  candidates (word_set query) docs = map (result_of query) (matches query docs).
Proof.
  unfold candidates, matches.
  induction docs as [|d docs IH]; simpl; [done|].
  rewrite map_app, IH. f_equal. rewrite map_map.
  induction (chunks d) as [|c cs IHc]; simpl; [done|].
  rewrite IHc. unfold overlap_of.
  destruct (score_cases (word_set query) d c) as [[H0 ->]|[Hpos ->]].
  - by rewrite H0.
  - destruct (Nat.ltb_spec 0 (size (word_set query ∩ word_set c)));
      [done | lia].
Qed.

Lemma matches_none (query : string) (docs : list document) :
  (∀ doc chunk, doc ∈ docs → chunk ∈ chunks doc → overlap_of query chunk = 0%nat) →
  matches query docs = [].
Proof.
  intros Hnone. unfold matches.
  induction docs as [|d docs IH]; simpl; [done|].
  rewrite IH by (intros; eapply Hnone; [by right | done]).
  rewrite app_nil_r.
  assert (Hd : ∀ chunk, chunk ∈ chunks d → overlap_of query chunk = 0%nat)
    by (intros; eapply Hnone; [by left | done]).
  induction (chunks d) as [|c cs IHc]; simpl; [done|].
  rewrite (Hd c) by by left. simpl. apply IHc.
  intros. apply Hd. by right.
Qed.

End Search.

(** ** Results and their places *)

Section Hits.
Import SimpleApp.

Lemma chunk_hits_erase (qw : gset string) (i : nat) (doc : document)
    (j : nat) (cs : list string) :
  map hit_result (chunk_hits qw i doc j cs) = flat_map (score qw doc) cs.
Proof.
  revert j. induction cs as [|c cs IH]; intros j; simpl; [done|].
  rewrite map_app, map_map, IH. simpl. by rewrite map_id.
Qed.

Lemma doc_hits_erase (qw : gset string) (i : nat) (docs : list document) :
  map hit_result (doc_hits qw i docs) = candidates qw docs.
Proof.
  revert i. induction docs as [|d docs IH]; intros i; simpl; [done|].
  by rewrite map_app, chunk_hits_erase, IH.
Qed.

(** Forgetting the places gives the list the program returns. *)
Lemma search_hits_erase (nav : navigator) (query : string) (top_k : Z) :
  map hit_result (search_hits nav query top_k)
  = search_documents nav query top_k.
Proof.
  unfold search_hits. rewrite search_documents_eq, slice_to_map.
  change hit_key with (similarity ∘ hit_result).
  by rewrite sort_reverse_map, doc_hits_erase.
Qed.

Lemma chunk_hits_placed (qw : gset string) (i : nat) (doc : document)
    (j : nat) (cs : list string) :
  Forall (placed doc cs i j) (chunk_hits qw i doc j cs).
Proof.
  revert j. induction cs as [|c cs IH]; intros j; simpl; [done|].
  apply Forall_app. split.
  - destruct (score_cases qw doc c) as [[_ ->]|[_ ->]]; [done|].
    constructor; [|done]. unfold placed. simpl.
    rewrite Nat.sub_diag. done.
  - eapply Forall_impl; [apply IH|].
    intros h (Hi & Hj & Hc & Ht). unfold placed.
    repeat split; [done | lia | | done].
    replace (chunk_index h - j)%nat with (S (chunk_index h - S j)) by lia.
    done.
Qed.

Lemma chunk_hits_sorted (qw : gset string) (i : nat) (doc : document)
    (j : nat) (cs : list string) :
  StronglySorted earlier (chunk_hits qw i doc j cs).
Proof.
  revert j. induction cs as [|c cs IH]; intros j; simpl; [constructor|].
  apply StronglySorted_app. split_and!.
  - intros a b Ha Hb.
    pose proof (chunk_hits_placed qw i doc (S j) cs) as Hp.
    rewrite Forall_forall in Hp. destruct (Hp b Hb) as (Hbi & Hbj & _).
    destruct (score_cases qw doc c) as [[_ Hs]|[_ Hs]]; rewrite Hs in Ha.
    + by apply elem_of_nil in Ha.
    + simpl in Ha. apply list_elem_of_singleton in Ha as ->.
      right. simpl. split; [done | lia].
  - destruct (score_cases qw doc c) as [[_ ->]|[_ ->]]; simpl;
      repeat constructor.
  - apply IH.
Qed.

Lemma doc_hits_from (qw : gset string) (i : nat) (docs : list document) :
  Forall (λ h, (i ≤ doc_index h)%nat) (doc_hits qw i docs).
Proof.
  revert i. induction docs as [|d docs IH]; intros i; simpl; [done|].
  apply Forall_app. split.
  - eapply Forall_impl; [apply chunk_hits_placed|].
    intros h (Hi & _). simpl in Hi. lia.
  - eapply Forall_impl; [apply IH|]. intros h Hh. simpl in Hh. lia.
Qed.

(** Before the sort, the hits stand in collection order. *)
Lemma doc_hits_sorted (qw : gset string) (i : nat) (docs : list document) :
  StronglySorted earlier (doc_hits qw i docs).
Proof.
  revert i. induction docs as [|d docs IH]; intros i; simpl; [constructor|].
  apply StronglySorted_app. split_and!.
  - intros a b Ha Hb.
    pose proof (chunk_hits_placed qw i d 0 (chunks d)) as Hpa.
    pose proof (doc_hits_from qw (S i) docs) as Hpb.
    rewrite Forall_forall in Hpa, Hpb.
    destruct (Hpa a Ha) as (Hai & _). specialize (Hpb b Hb). simpl in Hpb.
    left. lia.
  - apply chunk_hits_sorted.
  - apply IH.
Qed.

(** Every hit names a real chunk of the collection. *)
Lemma doc_hits_placed (qw : gset string) (i : nat) (docs : list document) :
  Forall (λ h, ∃ doc, docs !! (doc_index h - i)%nat = Some doc
                      ∧ (i ≤ doc_index h)%nat
                      ∧ chunks doc !! chunk_index h
                        = Some (r_content (hit_result h))
                      ∧ r_title (hit_result h) = title doc)
    (doc_hits qw i docs).
Proof.
  revert i. induction docs as [|d docs IH]; intros i; simpl; [done|].
  apply Forall_app. split.
  - eapply Forall_impl; [apply chunk_hits_placed|].
    intros h (Hi & _ & Hc & Ht). exists d.
    rewrite Hi, Nat.sub_diag, Nat.sub_0_r in *. done.
  - eapply Forall_impl; [apply IH|].
    intros h (doc & Hd & Hi & Hc & Ht). exists doc.
    replace (doc_index h - i)%nat with (S (doc_index h - S i)) by lia.
    repeat split; [done | lia | done | done].
Qed.

Lemma earlier_asym (a b : hit) : earlier a b → earlier b a → False.
Proof. unfold earlier. lia. Qed.

Lemma ranked_before_asym (a b : hit) :
  ranked_before a b → ranked_before b a → False.
Proof.
  intros [Hab|[Hab Eab]] [Hba|[Hba Eba]].
  - eapply Qlt_irrefl, Qlt_trans; eassumption.
  - rewrite Hba in Hab. by apply Qlt_irrefl in Hab.
  - rewrite Hab in Hba. by apply Qlt_irrefl in Hba.
  - by eapply earlier_asym.
Qed.

(** The tagged list is sorted by similarity, ties in collection order. *)
Lemma search_hits_sorted (nav : navigator) (query : string) (top_k : Z) :
  StronglySorted ranked_before (search_hits nav query top_k).
Proof.
  unfold search_hits. apply slice_to_sorted.
  apply sort_reverse_sorted, doc_hits_sorted.
Qed.

End Hits.

(** ** The arithmetic of doubles *)

Section Floats.
Local Open Scope Q_scope.

(** Rounding to the nearest integer moves a number by a half at most. *)
Lemma round_half_even_near (y : Q) :
  - (1 # 2) <= inject_Z (Py.round_half_even y) - y <= 1 # 2.
Proof.
  unfold Py.round_half_even.
  pose proof (Qfloor_le y) as Hle. pose proof (Qlt_floor y) as Hlt.
  rewrite inject_Z_plus in Hlt. change (inject_Z 1) with 1 in Hlt.
  destruct (y - inject_Z (Qfloor y) ?= 1 # 2) eqn:Hc.
  - apply Qeq_alt in Hc.
    destruct (Z.even (Qfloor y)); [|rewrite inject_Z_plus; change (inject_Z 1) with 1];
      lra.
  - apply Qlt_alt in Hc. lra.
  - apply Qgt_alt in Hc. rewrite inject_Z_plus. change (inject_Z 1) with 1. lra.
Qed.

Lemma pow2_pos (z : Z) : 0 < Py.pow2 z.
Proof. apply Qpower_0_lt. reflexivity. Qed.

Lemma pow2_plus (a b : Z) : Py.pow2 (a + b) == Py.pow2 a * Py.pow2 b.
Proof. apply Qpower_plus. discriminate. Qed.

Lemma pow2_Z (a : Z) : (0 <= a)%Z → Py.pow2 a == inject_Z (2 ^ a).
Proof. intros Ha. unfold Py.pow2. by rewrite Zpower_Qpower. Qed.

(** The exponent is not above the number: the unit in the last place
    is at most [2^-52] times the number. *)
Lemma float_exponent_le (x : Q) :
  ~ x == 0 → Py.pow2 (Py.float_exponent x) <= Qabs x.
Proof.
  intros Hx. unfold Py.float_exponent.
  set (n := Z.abs (Qnum x)). set (d := Z.pos (Qden x)).
  destruct (Qle_bool _ _) eqn:Htest; [by apply Qle_bool_iff|].
  assert (Hn : (0 < n)%Z).
  { subst n. destruct x as [[|p|p] den]; simpl; try lia.
    exfalso. apply Hx. reflexivity. }
  assert (Hd : (0 < d)%Z) by (subst d; lia).
  pose proof (Z.log2_spec n Hn) as [Hna _].
  pose proof (Z.log2_spec d Hd) as [_ Hdb].
  pose proof (Z.log2_nonneg n) as Ha. pose proof (Z.log2_nonneg d) as Hb.
  replace (Z.log2 n - Z.log2 d - 1)%Z with (Z.log2 n - Z.succ (Z.log2 d))%Z by lia.
  unfold Py.pow2 at 1. rewrite Qpower_minus by discriminate.
  fold (Py.pow2 (Z.log2 n)). fold (Py.pow2 (Z.succ (Z.log2 d))).
  rewrite !pow2_Z by lia.
  assert (Habs : Qabs x == inject_Z n / inject_Z d).
  { destruct x as [num den]. unfold Qabs. subst n d. simpl. apply Qmake_Qdiv. }
  rewrite Habs.
  assert (HD : 0 < inject_Z (2 ^ Z.succ (Z.log2 d))).
  { change 0 with (inject_Z 0). rewrite <- Zlt_Qlt. lia. }
  assert (Hd' : 0 < inject_Z d) by (change 0 with (inject_Z 0); rewrite <- Zlt_Qlt; lia).
  apply Qle_shift_div_r; [done|].
  assert (E : inject_Z n / inject_Z d * inject_Z (2 ^ Z.succ (Z.log2 d))
              == inject_Z n * inject_Z (2 ^ Z.succ (Z.log2 d)) / inject_Z d)
    by (field; lra).
  rewrite E.
  apply Qle_shift_div_l; [done|].
  rewrite <- !inject_Z_mult, <- Zle_Qle. nia.
Qed.

(** Rounding to a double moves a number by half a unit in the last place
    at most: [2^-53] times the number, or [2^-1075] below the normal
    range. *)
Lemma float_error (x : Q) :
  - (Py.pow2 (-53) * Qabs x + Py.pow2 (-1075)) <= Py.float x - x
  ∧ Py.float x - x <= Py.pow2 (-53) * Qabs x + Py.pow2 (-1075).
Proof.
  unfold Py.float. destruct (Qeq_bool x 0) eqn:H0.
  - apply Qeq_bool_iff in H0. rewrite H0.
    pose proof (pow2_pos (-1075)). pose proof (pow2_pos (-53)).
    change (Qabs 0) with 0. lra.
  - assert (Hx : ~ x == 0) by (intros H; apply Qeq_bool_iff in H; congruence).
    rewrite Qred_correct.
    set (e := Z.max (Py.float_exponent x) (-1022)).
    set (ulp := Py.pow2 (e - 52)).
    assert (Hulp : 0 < ulp) by apply pow2_pos.
    pose proof (round_half_even_near (x / ulp)) as [Hlo Hhi].
    set (r := inject_Z (Py.round_half_even (x / ulp))) in *.
    assert (Hmul : r * ulp - x == (r - x / ulp) * ulp) by (field; lra).
    assert (Hhalf : ulp * (1 # 2) <= Py.pow2 (-53) * Qabs x + Py.pow2 (-1075)).
    { subst ulp. unfold e.
      pose proof (float_exponent_le x Hx) as Hexp.
      pose proof (pow2_pos (-53)). pose proof (pow2_pos (-1075)).
      pose proof (Qabs_nonneg x).
      destruct (Z.max_spec (Py.float_exponent x) (-1022)) as [[_ ->]|[Hge ->]].
      - change (Py.pow2 (-1022 - 52) * (1 # 2)) with (Py.pow2 (-1074) * (1#2)).
        assert (Py.pow2 (-1074) * (1 # 2) == Py.pow2 (-1075)) by reflexivity.
        assert (0 <= Py.pow2 (-53) * Qabs x) by (apply Qmult_le_0_compat; lra).
        lra.
      - replace (Py.float_exponent x - 52)%Z with (Py.float_exponent x + (-52))%Z by lia.
        rewrite pow2_plus.
        assert (Hc : Py.pow2 (-52) * (1 # 2) == Py.pow2 (-53)) by reflexivity.
        assert (E : Py.pow2 (Py.float_exponent x) * Py.pow2 (-52) * (1 # 2)
                    == Py.pow2 (-53) * Py.pow2 (Py.float_exponent x))
          by (rewrite <- Hc; ring).
        rewrite E.
        assert (Py.pow2 (-53) * Py.pow2 (Py.float_exponent x) <= Py.pow2 (-53) * Qabs x).
        { apply Qmult_le_l; [done | done]. }
        lra. }
    rewrite Hmul.
    assert (H1 : (r - x / ulp) * ulp <= (1 # 2) * ulp)
      by (apply Qmult_le_compat_r; lra).
    assert (H2 : - (1 # 2) * ulp <= (r - x / ulp) * ulp)
      by (apply Qmult_le_compat_r; lra).
    lra.
Qed.


(** Between -16 and 16 this is at most [float_unit]. *)
Lemma float_near (x : Q) :
  - 16 <= x <= 16 → - float_unit <= Py.float x - x <= float_unit.
Proof.
  intros [Hlo Hhi]. pose proof (float_error x) as [He1 He2].
  assert (Habs : Qabs x <= 16) by (apply Qabs_Qle_condition; lra).
  assert (Hb : Py.pow2 (-53) * Qabs x + Py.pow2 (-1075) <= float_unit).
  { assert (Hm : Py.pow2 (-53) * Qabs x <= Py.pow2 (-53) * 16).
    { apply Qmult_le_l; [apply pow2_pos | done]. }
    assert (Hc : Py.pow2 (-53) * 16 + Py.pow2 (-1075) <= float_unit) by (by vm_compute).
    lra. }
  lra.
Qed.



(** Rounding keeps the sign. *)
Lemma float_nonneg (x : Q) : 0 <= x → 0 <= Py.float x.
Proof.
  intros Hx. unfold Py.float. destruct (Qeq_bool x 0); [lra|].
  rewrite Qred_correct.
  set (ulp := Py.pow2 _). assert (Hulp : 0 < ulp) by apply pow2_pos.
  assert (Hy : 0 <= x / ulp) by (apply Qle_shift_div_l; lra).
  pose proof (round_half_even_near (x / ulp)) as [Hlo _].
  assert (Hz : (0 <= Py.round_half_even (x / ulp))%Z).
  { destruct (Z_le_gt_dec 0 (Py.round_half_even (x / ulp))) as [|Hneg]; [done|].
    assert (inject_Z (Py.round_half_even (x / ulp)) <= inject_Z (-1))
      by (rewrite <- Zle_Qle; lia).
    change (inject_Z (-1)) with (-1) in *. lra. }
  apply Qmult_le_0_compat; [|lra].
  change 0 with (inject_Z 0). by rewrite <- Zle_Qle.
Qed.

Lemma count_succ {A} (x : A) (l : list A) :
  inject_Z (Z.of_nat (length (x :: l))) == inject_Z (Z.of_nat (length l)) + 1.
Proof.
  simpl length. rewrite Nat2Z.inj_succ, <- Z.add_1_r, inject_Z_plus. reflexivity.
Qed.

Lemma count_nonneg {A} (l : list A) : 0 <= inject_Z (Z.of_nat (length l)).
Proof. change 0 with (inject_Z 0). rewrite <- Zle_Qle. lia. Qed.

(** The loop of [sum]: when the accumulator is within [E] of the exact
    sum [S] of the numbers added so far, the result is within [E] and one
    rounding for each number left of the exact sum of all. The last
    hypothesis keeps every intermediate sum below 16. *)
Lemma fold_near (l : list Q) (acc S E : Q) :
  Forall (λ x, 0 <= x <= 2) l →
  - E <= acc - S <= E → 0 <= E → 0 <= S →
  S + 2 * inject_Z (Z.of_nat (length l)) + E
    + inject_Z (Z.of_nat (length l)) * float_unit <= 16 →
  - (E + inject_Z (Z.of_nat (length l)) * float_unit)
    <= fold_left (λ acc x, Py.float (acc + x)) l acc - (S + fold_right Qplus 0 l)
    <= E + inject_Z (Z.of_nat (length l)) * float_unit.
Proof.
  intros Hl. revert acc S E.
  induction Hl as [|x l [Hx0 Hx2] _ IH]; intros acc S E Hacc HE HS Hguard.
  - simpl. change (inject_Z (Z.of_nat 0)) with 0. lra.
  - rewrite count_succ in *. pose proof (count_nonneg l) as Hn.
    set (n := inject_Z (Z.of_nat (length l))) in *.
    assert (Hu : 0 < float_unit) by reflexivity.
    assert (Hnu : 0 <= n * float_unit) by (apply Qmult_le_0_compat; lra).
    simpl fold_left. simpl fold_right.
    pose proof (float_near (acc + x)) as Hf.
    assert (Hmag : - 16 <= acc + x <= 16) by lra.
    specialize (Hf Hmag).
    specialize (IH (Py.float (acc + x)) (S + x) (E + float_unit)).
    assert (Hg : S + x + 2 * n + (E + float_unit) + n * float_unit <= 16) by lra.
    specialize (IH ltac:(lra) ltac:(lra) ltac:(lra) Hg). lra.
Qed.

(** [sum] of at most five doubles between 0 and 2 is within five
    roundings of their exact sum. *)
Lemma sum_near (l : list Q) :
  Forall (λ x, 0 <= x <= 2) l → (length l <= 5)%nat →
  - (5 * float_unit) <= Py.sum l - fold_right Qplus 0 l <= 5 * float_unit.
Proof.
  intros Hl Hlen. unfold Py.sum.
  assert (Hn : inject_Z (Z.of_nat (length l)) <= 5).
  { change 5 with (inject_Z 5). rewrite <- Zle_Qle. lia. }
  pose proof (count_nonneg l) as Hn0.
  assert (Hu : 0 < float_unit) by reflexivity.
  pose proof (fold_near l 0 0 0 Hl) as H.
  set (n := inject_Z (Z.of_nat (length l))) in *.
  assert (Hnu : n * float_unit <= 5 * float_unit)
    by (apply Qmult_le_compat_r; lra).
  assert (Hnu0 : 0 <= n * float_unit) by (apply Qmult_le_0_compat; lra).
  assert (Hunit : float_unit <= 1) by (by vm_compute).
  specialize (H ltac:(lra) ltac:(lra) ltac:(lra) ltac:(lra)). lra.
Qed.

(** Rounding at most five numbers of the unit interval to doubles moves
    their exact sum by five roundings at most. *)
Lemma rounded_sum_near (qs : list Q) :
  Forall (λ q, 0 <= q <= 1) qs → (length qs <= 5)%nat →
  Forall (λ x, 0 <= x <= 2) (map Py.float qs)
  ∧ - (5 * float_unit)
     <= fold_right Qplus 0 (map Py.float qs) - fold_right Qplus 0 qs
     <= 5 * float_unit.
Proof.
  assert (Hu : 0 < float_unit) by reflexivity.
  assert (Hunit : float_unit <= 1) by (by vm_compute).
  intros Hqs Hlen.
  assert (H : Forall (λ x, 0 <= x <= 2) (map Py.float qs)
              ∧ - (inject_Z (Z.of_nat (length qs)) * float_unit)
                 <= fold_right Qplus 0 (map Py.float qs) - fold_right Qplus 0 qs
                 <= inject_Z (Z.of_nat (length qs)) * float_unit).
  { clear Hlen. induction Hqs as [|q qs [Hq0 Hq1] _ [IH1 IH2]].
    - split; [constructor|]. simpl. change (inject_Z (Z.of_nat 0)) with 0. lra.
    - pose proof (float_near q ltac:(lra)) as Hf.
      pose proof (float_nonneg q Hq0) as Hf0.
      split; [constructor; [lra | done]|].
      rewrite count_succ. simpl map. simpl fold_right. lra. }
  destruct H as [H1 H2]. split; [done|].
  assert (Hn : inject_Z (Z.of_nat (length qs)) <= 5).
  { change 5 with (inject_Z 5). rewrite <- Zle_Qle. lia. }
  assert (Hnu : inject_Z (Z.of_nat (length qs)) * float_unit <= 5 * float_unit)
    by (apply Qmult_le_compat_r; lra).
  lra.
Qed.

(** Dividing by the length of a list that is not empty does not widen a
    distance. *)
Lemma div_count_near {A} (l : list A) (a b E : Q) :
  l <> [] → 0 <= E → - E <= a - b <= E →
  - E <= a / inject_Z (Z.of_nat (length l)) - b / inject_Z (Z.of_nat (length l)) <= E.
Proof.
  intros Hl HE Hab.
  assert (Hn : 1 <= inject_Z (Z.of_nat (length l))).
  { change 1 with (inject_Z 1). rewrite <- Zle_Qle. destruct l; [done|]. simpl length. lia. }
  set (n := inject_Z (Z.of_nat (length l))) in *.
  assert (E1 : a / n - b / n == (a - b) / n) by (field; lra).
  rewrite E1.
  assert (HEn : E <= E * n) by nra.
  split.
  - apply Qle_shift_div_l; [lra|]. nra.
  - apply Qle_shift_div_r; [lra|]. lra.
Qed.

(** The mean of numbers of the unit interval lies in it. *)
Lemma mean_unit (qs : list Q) :
  qs <> [] → Forall (λ q, 0 <= q <= 1) qs → 0 <= mean qs <= 1.
Proof.
  intros Hne Hqs. unfold mean.
  assert (Hs : 0 <= fold_right Qplus 0 qs <= inject_Z (Z.of_nat (length qs))).
  { clear Hne. induction Hqs as [|q qs [H0 H1] _ IH].
    - simpl. change (inject_Z (Z.of_nat 0)) with 0. lra.
    - rewrite count_succ. simpl fold_right. lra. }
  assert (Hn : 1 <= inject_Z (Z.of_nat (length qs))).
  { change 1 with (inject_Z 1). rewrite <- Zle_Qle. destruct qs; [done|]. simpl length. lia. }
  split.
  - apply Qle_shift_div_l; lra.
  - apply Qle_shift_div_r; lra.
Qed.

(** The whole computation of the confidence, for at most five scores of
    the unit interval and a factor [f] that is the double nearest to [g]:
    the scores are rounded (five roundings on their sum), summed (five
    more), divided by their number (one more), multiplied by the factor
    (which doubles the eleven, and adds one for the factor and one for the
    product) and capped at one. *)
Lemma confidence_near (qs : list Q) (f g : Q) :
  qs <> [] → (length qs <= 5)%nat → Forall (λ q, 0 <= q <= 1) qs →
  0 <= f <= 2 → 0 <= g → - float_unit <= f - g <= float_unit →
  let c :=
    Qmin (Py.float
            (Py.float (Py.sum (map Py.float qs)
                       / inject_Z (Z.of_nat (length qs)))
             * f)) 1 in
  - (24 * float_unit) <= c - clamp01 (mean qs * g) <= 24 * float_unit.
Proof.
  intros Hne Hlen Hqs Hf Hg Hfg. cbv zeta.
  assert (Hu : 0 < float_unit) by reflexivity.
  assert (Hunit : float_unit <= 1 # 1000) by (by vm_compute).
  destruct (rounded_sum_near qs Hqs Hlen) as [Hxs Hsum].
  pose proof (sum_near (map Py.float qs) Hxs ltac:(by rewrite length_map)) as Hfs.
  pose proof (mean_unit qs Hne Hqs) as HM.
  set (s := Py.sum (map Py.float qs)) in *.
  assert (Hs : - (10 * float_unit) <= s - fold_right Qplus 0 qs <= 10 * float_unit) by lra.
  pose proof (div_count_near qs s (fold_right Qplus 0 qs) (10 * float_unit)
                Hne ltac:(lra) Hs) as Hdiv.
  fold (mean qs) in Hdiv.
  set (d := s / inject_Z (Z.of_nat (length qs))) in *.
  pose proof (float_near d ltac:(lra)) as Havg.
  set (avg := Py.float d) in *.
  assert (Hprod : - (23 * float_unit) <= avg * f - mean qs * g <= 23 * float_unit).
  { assert (E : avg * f - mean qs * g == (avg - mean qs) * f + mean qs * (f - g)) by ring.
    rewrite E. nra. }
  pose proof (float_near (avg * f) ltac:(nra)) as Hc0.
  set (c0 := Py.float (avg * f)) in *.
  assert (HT : 0 <= mean qs * g) by nra.
  unfold clamp01.
  rewrite (Q.max_r 0 (Qmin (mean qs * g) 1)) by (apply Q.min_glb; lra).
  destruct (Q.min_spec c0 1) as [[? ->]|[? ->]];
    destruct (Q.min_spec (mean qs * g) 1) as [[? ->]|[? ->]]; lra.
Qed.

(** The same computation does not go below zero. *)
Lemma fold_float_nonneg (l : list Q) (acc : Q) :
  Forall (λ x, 0 <= x) l → 0 <= acc →
  0 <= fold_left (λ acc x, Py.float (acc + x)) l acc.
Proof.
  intros Hl. revert acc. induction Hl as [|x l Hx _ IH]; intros acc Hacc.
  - done.
  - simpl. apply IH, float_nonneg. lra.
Qed.

Lemma confidence_nonneg (xs : list Q) (f : Q) :
  xs <> [] → Forall (λ x, 0 <= x) xs → 0 <= f →
  0 <= Qmin (Py.float (Py.float (Py.sum xs / inject_Z (Z.of_nat (length xs)))
                       * f)) 1.
Proof.
  intros Hne Hxs Hf. apply Q.min_glb; [|lra].
  apply float_nonneg, Qmult_le_0_compat; [|done].
  apply float_nonneg, Qle_shift_div_l.
  - destruct xs; [done|]. unfold Qlt. simpl. lia.
  - rewrite Qmult_0_l. by apply fold_float_nonneg.
Qed.

End Floats.

(** ** Confidence and the answer *)

Section Reading.
Local Open Scope Q_scope.

Lemma Z_le_of_Q (z k : Z) : inject_Z z < inject_Z k + 1 → (z ≤ k)%Z.
Proof.
  intros Hz. destruct (Z_le_gt_dec z k) as [|Hgt]; [done|].
  assert (H : inject_Z (k + 1) <= inject_Z z) by (rewrite <- Zle_Qle; lia).
  rewrite inject_Z_plus in H. change (inject_Z 1) with 1 in H. lra.
Qed.

Lemma Z_ge_of_Q (z k : Z) : inject_Z k - 1 < inject_Z z → (k ≤ z)%Z.
Proof.
  intros Hz. destruct (Z_le_gt_dec k z) as [|Hgt]; [done|].
  assert (H : inject_Z (z + 1) <= inject_Z k) by (rewrite <- Zle_Qle; lia).
  rewrite inject_Z_plus in H. change (inject_Z 1) with 1 in H. lra.
Qed.

(** What [format_f 2] prints for a number of hundredths between 0 and 100
    is a digit, a point and two digits, and reads back as that number of
    hundredths. *)
Lemma two_decimals_read (n : Z) :
  (0 ≤ n ≤ 100)%Z →
  ∃ v,
    two_decimal
      ("" +:+ pretty (n / 100)%Z +:+ "."
       +:+ Py.zeros (2 - String.length (pretty (n mod 100)%Z))
       +:+ pretty (n mod 100)%Z) = true
    ∧ read_fixed
        ("" +:+ pretty (n / 100)%Z +:+ "."
         +:+ Py.zeros (2 - String.length (pretty (n mod 100)%Z))
         +:+ pretty (n mod 100)%Z) = Some v
    ∧ v == inject_Z n / 100.
Proof.
  intros Hn.
  set (printed := λ n : Z,
         "" +:+ pretty (n / 100)%Z +:+ "."
         +:+ Py.zeros (2 - String.length (pretty (n mod 100)%Z))
         +:+ pretty (n mod 100)%Z).
  set (check := λ k : nat,
         two_decimal (printed (Z.of_nat k))
         && match read_fixed (printed (Z.of_nat k)) with
            | Some v => Qeq_bool v (inject_Z (Z.of_nat k) / 100)
            | None => false
            end).
  assert (Hall : forallb check (seq 0 101) = true) by (by vm_compute).
  rewrite forallb_forall in Hall.
  specialize (Hall (Z.to_nat n)).
  assert (Hin : In (Z.to_nat n) (seq 0 101)) by (apply in_seq; lia).
  specialize (Hall Hin). unfold check in Hall.
  rewrite Z2Nat.id in Hall by lia.
  apply andb_true_iff in Hall as [Hshape Hall].
  fold (printed n). destruct (read_fixed (printed n)) as [v|]; [|done].
  exists v. split_and!; [done | done |]. by apply Qeq_bool_iff.
Qed.

(** A number of the unit interval is printed by [format_f 2] as a digit,
    a point and two digits, and reads back as a number of the unit
    interval, at most 1/200 away. *)
Lemma printed_near (c : Q) :
  0 <= c <= 1 →
  ∃ v, two_decimal (Py.format_f 2 c) = true
       ∧ read_fixed (Py.format_f 2 c) = Some v
       ∧ 0 <= v <= 1 ∧ - (1 # 200) <= v - c <= 1 # 200.
Proof.
  intros [Hlo Hhi]. unfold Py.format_f.
  change (10 ^ Z.of_nat 2)%Z with 100%Z. cbv zeta.
  pose proof (round_half_even_near (Qabs c * inject_Z 100)) as Hn.
  set (n := Py.round_half_even (Qabs c * inject_Z 100)) in *.
  change (inject_Z 100) with 100 in Hn.
  destruct (Qlt_le_dec c 0) as [Hneg|_]; [lra|].
  assert (Habs : Qabs c == c) by (by apply Qabs_pos).
  rewrite Habs in Hn.
  assert (Hrange : (0 ≤ n ≤ 100)%Z).
  { split.
    - apply Z_ge_of_Q. change (inject_Z 0) with 0. lra.
    - apply Z_le_of_Q. change (inject_Z 100) with 100. lra. }
  destruct (two_decimals_read n Hrange) as (v & Hshape & Hread & Hv).
  exists v. split; [done|]. split; [done|].
  assert (H0 : 0 <= inject_Z n)
    by (change 0 with (inject_Z 0); rewrite <- Zle_Qle; lia).
  assert (H100 : inject_Z n <= 100)
    by (change 100 with (inject_Z 100); rewrite <- Zle_Qle; lia).
  assert (E : inject_Z n / 100 == inject_Z n * (1 # 100)) by (field; lra).
  rewrite Hv, E. lra.
Qed.

(** A confidence of the unit interval that is within the rounding of its
    operations of a target prints as a number of the unit interval within
    [print_tolerance] of the target. *)
Lemma printed_confidence (c target : Q) :
  0 <= c <= 1 →
  - (24 * float_unit) <= c - target <= 24 * float_unit →
  ∃ v, two_decimal (Py.format_f 2 c) = true
       ∧ read_fixed (Py.format_f 2 c) = Some v
       ∧ 0 <= v <= 1 ∧ Qabs (v - target) <= print_tolerance.
Proof.
  intros Hc Hnear.
  destruct (printed_near c Hc) as (v & Hshape & Hread & Hv & Hvc).
  exists v. split; [done|]. split; [done|]. split; [done|].
  apply Qabs_Qle_condition. unfold print_tolerance. lra.
Qed.

End Reading.

Section Answer.
Import SimpleApp.
Local Open Scope Q_scope.

Lemma sum_nonneg (l : list Q) :
  Forall (λ x, 0 <= x) l → 0 <= fold_right Qplus 0 l.
Proof.
  induction 1 as [|x l Hx Hl IH]; simpl; [lra|]. lra.
Qed.

Lemma sum_pos (l : list Q) :
  l ≠ [] → Forall (λ x, 0 < x) l → 0 < fold_right Qplus 0 l.
Proof.
  intros Hne Hl. destruct Hl as [|x l Hx Hl]; [done|]. simpl.
  assert (0 <= fold_right Qplus 0 l); [|lra].
  apply sum_nonneg. eapply Forall_impl; [exact Hl|].
  intros y Hy. simpl in Hy. lra.
Qed.

Lemma mean_pos (l : list Q) :
  l ≠ [] → Forall (λ x, 0 < x) l → 0 < mean l.
Proof.
  intros Hne Hl. unfold mean. apply Qlt_shift_div_l.
  - destruct l; [done|]. unfold Qlt. simpl. lia.
  - rewrite Qmult_0_l. by apply sum_pos.
Qed.

Lemma clamp01_unit (x : Q) : 0 <= clamp01 x <= 1.
Proof.
  unfold clamp01. split; [apply Q.le_max_l|].
  apply Q.max_lub; [lra | apply Q.le_min_r].
Qed.

Lemma clamp01_pos (x : Q) : 0 < x → 0 < clamp01 x.
Proof.
  intros Hx. unfold clamp01.
  apply Qlt_le_trans with (Qmin x 1); [|apply Q.le_max_r].
  apply Q.min_glb_lt; lra.
Qed.

Lemma word_set_blank : word_set "" = ∅.
Proof. done. Qed.

Lemma candidates_blank (docs : list document) : candidates ∅ docs = [].
Proof.
  unfold candidates. induction docs as [|d docs IH]; simpl; [done|].
  rewrite IH, app_nil_r.
  induction (chunks d) as [|c cs IHc]; simpl; [done|].
  rewrite IHc, app_nil_r.
  destruct (score_cases ∅ d c) as [[_ ->]|[Hpos _]]; [done|].
  assert (H0 : size ((∅ : gset string) ∩ word_set c) = 0%nat).
  { apply size_empty_iff. intros x. rewrite elem_of_intersection.
    split; [intros [[] %elem_of_empty _] | intros [] %elem_of_empty]. }
  lia.
Qed.

(** A query without a word retrieves nothing. *)
Lemma search_blank (nav : navigator) (top_k : Z) :
  search_documents nav "" top_k = [].
Proof.
  rewrite search_documents_eq, word_set_blank, candidates_blank. simpl.
  unfold Py.slice_to. by destruct (0 <=? top_k)%Z; rewrite take_nil.
Qed.

Lemma search_similarities_pos (nav : navigator) (query : string)
    (top_k : Z) :
  Forall (λ x, 0 < x ∧ x <= 1)
    (map similarity (search_documents nav query top_k)).
Proof.
  apply Forall_map, Forall_forall. intros r Hr.
  apply search_subseteq in Hr.
  pose proof (candidates_unit (word_set query) (documents nav)) as Hu.
  rewrite Forall_forall in Hu. exact (Hu r Hr).
Qed.

(** The search does not look at the generation backend. *)
Lemma search_documents_model (m' : option backend) (nav : navigator)
    (query : string) (top_k : Z) :
  search_documents {| model := m'; documents := documents nav |} query top_k
  = search_documents nav query top_k.
Proof. reflexivity. Qed.

(** The handler asks for five results and gets five at most. *)
Lemma search_five (nav : navigator) (query : string) :
  (length (search_documents nav query 5) ≤ 5)%nat.
Proof.
  rewrite search_documents_eq.
  pose proof (slice_to_length_top
                (Py.sort_reverse similarity
                   (candidates (word_set query) (documents nav))) 5) as H.
  lia.
Qed.

(** The handler on a question that retrieves something: one call of
    [generate_answer], then the sources and the printed confidence. *)
Lemma query_literature_evidence (nav : navigator) (q : string) :
  search_documents nav (Py.strip q) 5 ≠ [] →
  query_literature nav (Ask (Some q))
  = (Reply
       {| answer :=
            (generate_answer nav (Py.strip q)
               (search_documents nav (Py.strip q) 5)).1;
          sources := map source_of (search_documents nav (Py.strip q) 5);
          confidence :=
            Py.format_f 2
              (confidence_score (search_documents nav (Py.strip q) 5)) |},
     (generate_answer nav (Py.strip q)
        (search_documents nav (Py.strip q) 5)).2).
Proof.
  intros Hne. unfold query_literature. simpl.
  destruct (Py.strip q) as [|c question] eqn:Hq.
  { by rewrite search_blank in Hne. }
  destruct (search_documents nav (String c question) 5) as [|r rs]; [done|].
  by destruct (generate_answer nav (String c question) (r :: rs)).
Qed.

(** With evidence, the confidence of the simple application lies in the
    unit interval, within the rounding of its operations of the clamped
    scaled mean of the similarities. *)
Lemma search_confidence_near (nav : navigator) (query : string) :
  search_documents nav query 5 ≠ [] →
  0 <= confidence_score (search_documents nav query 5) <= 1
  ∧ - (24 * float_unit)
    <= confidence_score (search_documents nav query 5)
       - clamp01 (mean (map similarity (search_documents nav query 5))
                  * (3 # 2))
    <= 24 * float_unit.
Proof.
  intros Hne.
  pose proof (search_similarities_pos nav query 5) as Hunit.
  pose proof (search_five nav query) as Hfive.
  set (rs := search_documents nav query 5) in *.
  split.
  { split; [|apply Q.le_min_r]. unfold confidence_score.
    rewrite <- (length_map similarity_float).
    apply confidence_nonneg; [by destruct rs | | lra].
    apply Forall_map, Forall_forall. intros r Hr.
    apply float_nonneg. rewrite Forall_map, Forall_forall in Hunit.
    apply Qlt_le_weak, (Hunit r Hr). }
  assert (Hfu : 0 < float_unit) by reflexivity.
  pose proof (confidence_near (map similarity rs) (3 # 2) (3 # 2)) as H.
  cbv zeta in H. rewrite length_map, map_map in H.
  apply H; try lra.
  - by destruct rs.
  - done.
  - eapply Forall_impl; [exact Hunit|]. intros x [H0 H1]. split; lra.
Qed.

(** The same for the web application, when its retriever returns at most
    the five results it is asked for, with scores of the unit interval. *)
Lemma web_confidence_near (found : list WebApp.retrieval_result) :
  found ≠ [] → (length found ≤ 5)%nat →
  Forall (λ r, 0 <= WebApp.similarity_score r <= 1) found →
  0 <= WebApp.confidence_score found <= 1
  ∧ - (24 * float_unit)
    <= WebApp.confidence_score found
       - clamp01 (mean (map WebApp.similarity_score found) * (6 # 5))
    <= 24 * float_unit.
Proof.
  intros Hne Hfive Hunit.
  pose proof (float_near (6 # 5) ltac:(lra)) as Hfactor.
  pose proof (float_nonneg (6 # 5) ltac:(lra)) as Hfactor0.
  split.
  { split; [|apply Q.le_min_r]. unfold WebApp.confidence_score.
    rewrite <- (length_map (λ r, Py.float (WebApp.similarity_score r))).
    apply confidence_nonneg; [by destruct found | | done].
    apply Forall_map, Forall_forall. intros r Hr.
    apply float_nonneg. rewrite Forall_forall in Hunit.
    apply (Hunit r Hr). }
  assert (Hfu : float_unit <= 1 # 2) by (by vm_compute).
  pose proof (confidence_near (map WebApp.similarity_score found)
                (Py.float (6 # 5)) (6 # 5)) as H.
  cbv zeta in H. rewrite length_map, map_map in H.
  apply H; try lra.
  - by destruct found.
  - done.
  - by apply Forall_map.
Qed.

(** The handler of the web application on a question that retrieves
    something. *)
Lemma web_query_evidence (app : WebApp.web_app) (q : string)
    (found : list WebApp.retrieval_result) :
  Py.strip q ≠ "" →
  WebApp.retrieve app (Py.strip q) 5%Z = WebApp.Retrieved found →
  found ≠ [] →
  ∃ text sent,
    WebApp.query_literature (Some app) (Ask (Some q))
    = (WebApp.Reply
         {| WebApp.answer := text;
            WebApp.sources := map WebApp.source_of found;
            WebApp.confidence :=
              WebApp.Str (Py.format_f 2 (WebApp.confidence_score found)) |},
       sent).
Proof.
  intros Hq Hfound Hne. unfold WebApp.query_literature. simpl.
  destruct (Py.strip q) as [|c question]; [done|]. rewrite Hfound.
  destruct found as [|r rs]; [done|].
  destruct (WebApp.generate_answer _ _ _) as [text sent]. eauto.
Qed.

End Answer.

Example split_demo :
  Py.split "  the quick
 brown	fox " = ["the"; "quick"; "brown"; "fox"].
Proof. reflexivity. Qed.

Example strip_demo : Py.strip "  What is  RAG? 	" = "What is  RAG?".
Proof. reflexivity. Qed.

Example lower_demo : Py.lower "Deep Learning" = "deep learning".
Proof. reflexivity. Qed.

Example create_chunks_demo :
  SimpleApp.create_chunks "aa bb cc dd e" 6 = ["aa bb"; "cc dd"; "e"].
Proof. reflexivity. Qed.

Example create_chunks_long :
  SimpleApp.create_chunks "abcdefghij k" 5 = ["abcdefghij"; "k"].
Proof. reflexivity. Qed.

Example format_demo :
  (Py.format_f 2 (1 # 8), Py.format_f 2 (3 # 8), Py.format_f 3 (1 # 3),
   Py.format_f 2 1%Q, Py.format_f 2 (- (1 # 1000))%Q)
  = ("0.12", "0.38", "0.333", "1.00", "-0.00").
Proof. vm_compute. reflexivity. Qed.

(** The doubles nearest to 1/10, 11/20 and 6/5, the product
    [0.55 * 1.5] and the sum [0.1 + 0.2]. *)
Example float_demo :
  (Py.float (1 # 10), Py.float (11 # 20), Py.float (6 # 5),
   Py.float (Py.float (11 # 20) * (3 # 2)),
   Py.sum [Py.float (1 # 10); Py.float (1 # 5)])
  = ((3602879701896397 # 36028797018963968)%Q,
     (2476979795053773 # 4503599627370496)%Q,
     (5404319552844595 # 4503599627370496)%Q,
     (7430939385161319 # 9007199254740992)%Q,
     (1351079888211149 # 4503599627370496)%Q).
Proof. vm_compute. reflexivity. Qed.

(** A similarity of 1/80 is printed from the double nearest to it, which
    is above 0.0125. *)
Example source_similarity_demo :
  ∃ body sent,
    SimpleApp.query_literature Demo.eighty_nav (SimpleApp.Ask (Some "7"))
    = (SimpleApp.Reply body, sent)
    ∧ map SimpleApp.similarity
        (SimpleApp.search_documents Demo.eighty_nav "7" 5) = [1 # 80]
    ∧ map SimpleApp.s_similarity (SimpleApp.sources body) = ["0.013"]
    ∧ Py.format_f 3 (1 # 80) = "0.012"
    ∧ SimpleApp.confidence body = "0.02".
Proof. do 2 eexists. split_and!; by vm_compute. Qed.

(** A failing backend on one result of similarity 11/20: the confidence
    is printed from the product of doubles, which is above 33/40. *)
Example backend_failure_demo :
  (SimpleApp.query_literature (Demo.twenty_nav (Some Demo.broken))
     (SimpleApp.Ask (Some Demo.eleven))).1
  = SimpleApp.Reply
      {| SimpleApp.answer := "Error generating answer: quota exceeded";
         SimpleApp.sources :=
           [ {| SimpleApp.s_title := "t";
                SimpleApp.s_section := "Content";
                SimpleApp.s_similarity := "0.550";
                SimpleApp.s_content :=
                  "a b c d e f g h i j k l m n o p q r s t..." |} ];
         SimpleApp.confidence := "0.83" |}.
Proof. vm_compute. reflexivity. Qed.

Example read_fixed_demo :
  (read_fixed "0.83", read_fixed "1.00", read_fixed "-0.00",
   read_fixed "12.5", read_fixed "0.", read_fixed ".5", read_fixed "1.2.3",
   read_fixed "0.8x")
  = (Some (83 # 100)%Q, Some 1%Q, Some 0%Q, Some (25 # 2)%Q,
     None, None, None, None).
Proof. vm_compute. reflexivity. Qed.

Example search_demo :
  SimpleApp.search_documents (Demo.after_ab None) "retrieval generation" 3
  = [ {| SimpleApp.r_title := "a";
         SimpleApp.r_content := "Retrieval augmented generation grounds answers";
         SimpleApp.similarity := 2 # 5 |};
      {| SimpleApp.r_title := "b";
         SimpleApp.r_content := "Dense retrieval with transformers";
         SimpleApp.similarity := 1 # 5 |} ].
Proof. vm_compute. reflexivity. Qed.

(** ** The properties of the chunker *)

Section ChunkerProperties.
Import SimpleApp.

Lemma Forall_removelast {A} (P : A → Prop) (l : list A) :
  Forall P l → Forall P (removelast l).
Proof.
  induction 1 as [|x l Hx Hl IH]; simpl; [done|].
  destruct l; [done | by constructor].
Qed.

Lemma removelast_snoc {A} (l : list A) (x : A) : removelast (l ++ [x]) = l.
Proof. by rewrite removelast_last. Qed.

(** C10. For every text and every chunk size, [create_chunks] cuts the
    white-space-separated words of the text into consecutive chunks: no
    returned chunk is empty; the words of the chunks, taken in order, are
    exactly the words of the text (none dropped, none repeated, order kept);
    and joining the chunks with single spaces gives the space-joined word
    list of the text. *)
Theorem create_chunks_partition (content : string) (chunk_size : Z) :
  Forall (λ chunk, chunk ≠ "") (create_chunks content chunk_size)
  ∧ concat (map Py.split (create_chunks content chunk_size))
    = Py.split content
  ∧ Py.join " " (create_chunks content chunk_size)
    = Py.join " " (Py.split content).
Proof.
  destruct (create_chunks_groups content chunk_size)
    as (groups & rest & -> & Hcat & Hclosed & Hrest).
  pose proof (create_chunks_groups_nonempty _ _ _ Hclosed Hrest) as Hne.
  assert (Hwords : Forall (Forall is_word) (groups ++ rest)).
  { apply Forall_concat_inv. rewrite Hcat. apply split_words. }
  split_and!.
  - apply Forall_map. rewrite Forall_forall in Hne, Hwords.
    apply Forall_forall. intros g Hg. apply join_nonempty; auto.
  - by rewrite split_joined_groups.
  - by rewrite join_concat, Hcat.
Qed.

(** C4, as the code has it. For every text and every target size: a chunk
    of several words is shorter than the target plus the length of its last
    word (the chunk was below the target before that word was added, and may
    exceed the target with it); every chunk but the last has reached the
    target (its length plus one is at least the target); and consecutive
    chunks share no text: the words of the chunks, in order, are the words of
    the input, each once. The chunker knows no section kinds. *)
Theorem create_chunks_target (content : string) (chunk_size : Z) :
  Forall (λ chunk, ∃ ws w, Py.split chunk = ws ++ [w]
                           ∧ (ws = []
                              ∨ (Py.len chunk < chunk_size + Py.len w)%Z))
    (create_chunks content chunk_size)
  ∧ Forall (λ chunk, (chunk_size ≤ Py.len chunk + 1)%Z)
      (removelast (create_chunks content chunk_size))
  ∧ concat (map Py.split (create_chunks content chunk_size))
    = Py.split content.
Proof.
  destruct (create_chunks_groups content chunk_size)
    as (groups & rest & -> & Hcat & Hclosed & Hrest).
  assert (Hwords : Forall (Forall is_word) (groups ++ rest)).
  { apply Forall_concat_inv. rewrite Hcat. apply split_words. }
  apply Forall_app in Hwords as [Hwg Hwr].
  assert (Hreached : Forall (λ chunk, (chunk_size ≤ Py.len chunk + 1)%Z)
                       (map (Py.join " ") groups)).
  { apply Forall_map. eapply Forall_impl; [exact Hclosed|].
    intros g (g' & w & -> & _ & Hle). simpl.
    rewrite len_join by by destruct g'. lia. }
  split_and!.
  - rewrite map_app. apply Forall_app. split.
    + apply Forall_map. rewrite Forall_forall in Hclosed, Hwg.
      apply Forall_forall. intros g Hg. simpl.
      destruct (Hclosed g Hg) as (g' & w & -> & Hopen & _).
      exists g', w. rewrite split_join by auto. split; [done|].
      destruct Hopen as [->|Hlt]; [by left|right].
      rewrite len_join by by destruct g'.
      rewrite wsize_app. simpl. lia.
    + destruct Hrest as [->|(g & -> & Hg & Hlt)]; [done|].
      constructor; [|done].
      apply Forall_inv in Hwr.
      destruct (exists_last Hg) as (g' & w & ->).
      exists g', w. rewrite split_join by done. split; [done|].
      right. rewrite len_join by by destruct g'.
      unfold Py.len. lia.
  - destruct Hrest as [->|(g & -> & _)].
    + rewrite app_nil_r. by apply Forall_removelast.
    + rewrite map_app. simpl. by rewrite removelast_snoc.
  - rewrite split_joined_groups by (apply Forall_app; done). done.
Qed.

(** C4, as stated, fails: a chunk can be longer than the target, at a small
    target and at the default one, and consecutive chunks share no word. *)
Lemma create_chunks_exceeds_target :
  create_chunks "abcdefghij kl" 5 = ["abcdefghij"; "kl"]
  ∧ ¬ Forall (λ chunk, (Py.len chunk ≤ 5)%Z)
        (create_chunks "abcdefghij kl" 5)
  ∧ word_set "abcdefghij" ∩ word_set "kl" = ∅
  ∧ map Py.len (create_chunks Demo.long_text default_chunk_size)
    = [805%Z; 2%Z]
  ∧ ¬ Forall (λ chunk, (Py.len chunk ≤ default_chunk_size)%Z)
        (create_chunks Demo.long_text default_chunk_size).
Proof.
  split_and!.
  - by vm_compute.
  - intros H. apply Forall_inv in H. by vm_compute in H.
  - by vm_compute.
  - by vm_compute.
  - intros H. apply Forall_inv in H. by vm_compute in H.
Qed.

End ChunkerProperties.

(** ** The properties of the search *)

Section SearchProperties.
Import SimpleApp.

(** C5. For every query, every collection and every [top_k], each result
    returned by [search_documents] has a similarity between 0 and 1. *)
Theorem search_similarity_unit (nav : navigator) (query : string) (top_k : Z) :
  Forall (λ r, (0 <= similarity r)%Q ∧ (similarity r <= 1)%Q)
    (search_documents nav query top_k).
Proof.
  apply Forall_forall. intros r Hr. apply search_subseteq in Hr.
  pose proof (candidates_unit (word_set query) (documents nav)) as Hu.
  rewrite Forall_forall in Hu. destruct (Hu r Hr) as [H0 H1].
  split; [by apply Qlt_le_weak | done].
Qed.

Lemma search_hits_subseteq (nav : navigator) (query : string) (top_k : Z) :
  search_hits nav query top_k ⊆ doc_hits (word_set query) 0 (documents nav).
Proof.
  intros h Hh. unfold search_hits in Hh.
  apply slice_to_subseteq in Hh. by rewrite sort_reverse_perm in Hh.
Qed.

(** C7, as the code has it. The returned list is ordered by non-increasing
    similarity; on exact ties the result of the document added earlier comes
    first, and within one document the smaller chunk position comes first
    (the sort is stable and the results arrive in collection order). Each
    result is tagged here with the position of its document and of its
    chunk, and the tags point at the chunk the result carries. *)
Theorem search_order (nav : navigator) (query : string) (top_k : Z) :
  map hit_result (search_hits nav query top_k)
  = search_documents nav query top_k
  ∧ StronglySorted (λ a b, (similarity b <= similarity a)%Q)
      (search_documents nav query top_k)
  ∧ StronglySorted ranked_before (search_hits nav query top_k)
  ∧ Forall (λ h, ∃ doc, documents nav !! doc_index h = Some doc
                        ∧ chunks doc !! chunk_index h
                          = Some (r_content (hit_result h))
                        ∧ r_title (hit_result h) = title doc)
      (search_hits nav query top_k).
Proof.
  split_and!.
  - apply search_hits_erase.
  - rewrite search_documents_eq. apply slice_to_sorted.
    apply sort_reverse_nonincreasing.
  - apply search_hits_sorted.
  - apply Forall_forall. intros h Hh. apply search_hits_subseteq in Hh.
    pose proof (doc_hits_placed (word_set query) 0 (documents nav)) as Hp.
    rewrite Forall_forall in Hp.
    destruct (Hp h Hh) as (doc & Hd & _ & Hc & Ht).
    rewrite Nat.sub_0_r in Hd. eauto.
Qed.

(** C7, as stated, fails: with two documents whose matching chunks tie, the
    chunk at position 1 of the first document is returned before the chunk
    at position 0 of the second. *)
Lemma search_tie_keeps_collection_order :
  search_hits Demo.tie_nav "hello" 5 = Demo.tie_hits
  ∧ ¬ StronglySorted position_first (search_hits Demo.tie_nav "hello" 5).
Proof.
  assert (E : search_hits Demo.tie_nav "hello" 5 = Demo.tie_hits)
    by (by vm_compute).
  split; [done|]. rewrite E. intros H.
  apply StronglySorted_inv in H as [_ H]. apply Forall_inv in H.
  destruct H as [H|[_ [H|[H _]]]]; simpl in H.
  - by vm_compute in H.
  - lia.
  - lia.
Qed.

(** C8. On an empty collection, and when no chunk shares a word with the
    query (the floor of the search), [search_documents] returns the empty
    list; when [top_k] is at least the number of matching chunks it returns
    exactly the results of the matching chunks, as many as there are; it
    never returns more results than there are matching chunks, nor, for a
    [top_k] that is not negative, more than [top_k]; and every result is the
    result of a matching chunk of the collection. *)
Theorem search_edge_cases (nav : navigator) (query : string) (top_k : Z) :
  (documents nav = [] → search_documents nav query top_k = [])
  ∧ (Forall (λ doc, Forall (λ chunk, overlap_of query chunk = 0%nat)
                      (chunks doc)) (documents nav) →
     search_documents nav query top_k = [])
  ∧ ((Z.of_nat (length (matches query (documents nav))) ≤ top_k)%Z →
     search_documents nav query top_k
       ≡ₚ map (result_of query) (matches query (documents nav))
     ∧ length (search_documents nav query top_k)
       = length (matches query (documents nav)))
  ∧ ((0 ≤ top_k)%Z →
     (Z.of_nat (length (search_documents nav query top_k)) ≤ top_k)%Z)
  ∧ (length (search_documents nav query top_k)
     ≤ length (matches query (documents nav)))%nat
  ∧ search_documents nav query top_k
    ⊆ map (result_of query) (matches query (documents nav)).
Proof.
  assert (Hlen : length (Py.sort_reverse similarity
                           (candidates (word_set query) (documents nav)))
                 = length (matches query (documents nav))).
  { by rewrite sort_reverse_length, candidates_matches, length_map. }
  assert (Hnone : matches query (documents nav) = [] →
                  search_documents nav query top_k = []).
  { intros Hm. rewrite search_documents_eq, candidates_matches, Hm. simpl.
    unfold Py.slice_to. by destruct (0 <=? top_k)%Z; rewrite take_nil. }
  split_and!.
  - intros Hdocs. apply Hnone. by rewrite Hdocs.
  - intros Hfloor. apply Hnone, matches_none.
    intros doc chunk Hdoc Hchunk.
    rewrite Forall_forall in Hfloor. specialize (Hfloor doc Hdoc).
    rewrite Forall_forall in Hfloor. by apply Hfloor.
  - intros Hk. rewrite search_documents_eq, slice_to_all by lia.
    split; [|done]. by rewrite sort_reverse_perm, candidates_matches.
  - intros Hk. rewrite search_documents_eq. by apply slice_to_length_top.
  - rewrite search_documents_eq, <- Hlen. apply slice_to_length_le.
  - rewrite <- candidates_matches. apply search_subseteq.
Qed.

(** C9. Retrieval is deterministic: the returned list is a function of the
    query, of the documents of the collection and of [top_k] alone; and it
    does not depend on how the sort proceeds: any arrangement of the
    candidates that is ordered by similarity with ties in collection order
    gives, once cut at [top_k], the very list that is returned. *)
Theorem search_deterministic (nav1 nav2 : navigator) (query : string)
    (top_k : Z) :
  documents nav1 = documents nav2 →
  search_documents nav1 query top_k = search_documents nav2 query top_k
  ∧ ∀ l, l ≡ₚ doc_hits (word_set query) 0 (documents nav1) →
         StronglySorted ranked_before l →
         map hit_result (Py.slice_to l top_k)
         = search_documents nav2 query top_k.
Proof.
  intros Hdocs. split.
  - unfold search_documents. by rewrite Hdocs.
  - intros l Hperm Hsorted.
    rewrite <- search_hits_erase. unfold search_hits. rewrite <- Hdocs.
    f_equal. f_equal.
    apply (StronglySorted_unique_strong ranked_before); [|done| |].
    + intros a b _ _ Hab Hba. by destruct (ranked_before_asym a b).
    + apply sort_reverse_sorted, doc_hits_sorted.
    + by rewrite sort_reverse_perm.
Qed.

End SearchProperties.

(** ** The properties of ingestion and of the answer *)

Section AnswerProperties.
Import SimpleApp.

Lemma total_chunks_snoc (m : option backend) (docs : list document)
    (doc : document) :
  total_chunks {| model := m; documents := docs ++ [doc] |}
  = (total_chunks {| model := m; documents := docs |}
     + length (chunks doc))%nat.
Proof.
  unfold total_chunks. simpl.
  induction docs as [|d docs IH]; simpl; [lia|]. rewrite IH. lia.
Qed.

(** C1, as the code has it. Adding the same document twice with unchanged
    content builds the same record, with the same chunks, both times; the
    store appends it each time, so after the second addition the collection
    holds the record twice: one more document, and as many more chunks as
    the document has. *)
Theorem add_document_twice (nav : navigator) (fs : filesystem)
    (filename title content : string) :
  let first := add_document nav fs filename title content in
  let second := add_document first.1.2 first.2 filename title content in
  second.1.1 = first.1.1
  ∧ chunks first.1.1 = create_chunks content default_chunk_size
  ∧ documents second.1.2 = documents nav ++ [first.1.1; first.1.1]
  ∧ unique_documents second.1.2 = S (unique_documents first.1.2)
  ∧ total_chunks second.1.2
    = (total_chunks first.1.2 + length (chunks first.1.1))%nat.
Proof.
  simpl. split_and!.
  - done.
  - done.
  - by rewrite <- app_assoc.
  - unfold unique_documents. simpl. rewrite !length_app. simpl. lia.
  - apply total_chunks_snoc.
Qed.

(** C1, as stated, fails: the second addition of an unchanged document
    doubles the number of stored chunks. *)
Lemma reingestion_duplicates :
  let first :=
    add_document (Demo.empty_nav None) Demo.disk "a.pdf" "a" "hello world" in
  let second := add_document first.1.2 first.2 "a.pdf" "a" "hello world" in
  total_chunks first.1.2 = 1%nat
  ∧ total_chunks second.1.2 = 2%nat
  ∧ total_chunks second.1.2 ≠ total_chunks first.1.2
  ∧ documents second.1.2 = [first.1.1; first.1.1].
Proof. by vm_compute. Qed.

(** C2, as the code has it. For every question that is not blank (not empty
    once stripped of surrounding white space): when the search finds no
    matching chunk, and in particular on an empty collection, the handler
    of the simple application answers with the fixed message, no source and
    the confidence ["0.00"], and sends nothing to the generation backend;
    so does the handler of the web application once it is initialised, with
    its own fixed message and the confidence [0.0], when its retriever
    returns the empty list. *)
Theorem no_evidence_answer (nav : navigator) (app : WebApp.web_app)
    (q : string) :
  Py.strip q ≠ "" →
  (search_documents nav (Py.strip q) 5 = [] →
   query_literature nav (Ask (Some q)) = (Reply no_evidence, []))
  ∧ (documents nav = [] →
     query_literature nav (Ask (Some q)) = (Reply no_evidence, []))
  ∧ (WebApp.retrieve app (Py.strip q) 5%Z = WebApp.Retrieved [] →
     WebApp.query_literature (Some app) (Ask (Some q))
     = (WebApp.Reply WebApp.no_evidence, []))
  ∧ sources no_evidence = [] ∧ confidence no_evidence = "0.00"
  ∧ WebApp.sources WebApp.no_evidence = []
  ∧ WebApp.confidence WebApp.no_evidence = WebApp.Num 0.
Proof.
  intros Hq.
  assert (Hsimple : search_documents nav (Py.strip q) 5 = [] →
                    query_literature nav (Ask (Some q)) = (Reply no_evidence, [])).
  { intros Hnone. unfold query_literature. simpl.
    destruct (Py.strip q) as [|c question]; [done|]. by rewrite Hnone. }
  split_and!; try done.
  - intros Hdocs. apply Hsimple.
    by rewrite search_documents_eq, Hdocs.
  - intros Hnone. unfold WebApp.query_literature. simpl.
    destruct (Py.strip q) as [|c question]; [done|]. by rewrite Hnone.
Qed.

(** C2, as stated, fails: a blank question retrieves nothing, and the
    handlers reject it with status 400 instead of the fixed answer. *)
Lemma blank_question_rejected :
  search_documents (Demo.empty_nav (Some Demo.echo)) (Py.strip "  ") 5 = []
  ∧ query_literature (Demo.empty_nav (Some Demo.echo)) (Ask (Some "  "))
    = (Failure 400 "Please provide a question", [])
  ∧ (query_literature (Demo.empty_nav (Some Demo.echo)) (Ask (Some "  "))).1
    ≠ Reply no_evidence
  ∧ WebApp.query_literature (Some (Demo.web [])) (Ask (Some "  "))
    = (WebApp.Failure 400 "Please provide a question", []).
Proof. by vm_compute. Qed.

(** C3, as the code has it. When the call of the generation backend fails,
    the error is caught: the handler answers with status 200, the answer
    field is the failure message built from the error, and the sources and
    the confidence are those of the evidence, the same as when the backend
    succeeds. The confidence is not set to zero: it is printed as a digit,
    a point and two digits, and reads as a number between 0 and 1, at most
    [print_tolerance] away from the mean similarity of the evidence scaled
    by 3/2 and clamped to the unit interval, which is positive. Whatever
    the request, the handler returns a response, with status 200, 400 or
    500. *)
Theorem backend_failure_answer (nav : navigator) (m : backend)
    (q err : string) :
  model nav = Some m →
  search_documents nav (Py.strip q) 5 ≠ [] →
  m (prompt_of (Py.strip q)
       (context_of (search_documents nav (Py.strip q) 5))) = Raised err →
  (∃ body v,
     query_literature nav (Ask (Some q))
     = (Reply body,
        [prompt_of (Py.strip q)
           (context_of (search_documents nav (Py.strip q) 5))])
     ∧ answer body = "Error generating answer: " +:+ err
     ∧ map s_title (sources body)
       = map r_title (search_documents nav (Py.strip q) 5)
     ∧ (∀ text, ∃ body' sent',
          query_literature
            {| model := Some (λ _, Generated text);
               documents := documents nav |}
            (Ask (Some q)) = (Reply body', sent')
          ∧ sources body' = sources body
          ∧ confidence body' = confidence body)
     ∧ two_decimal (confidence body) = true
     ∧ read_fixed (confidence body) = Some v
     ∧ (0 <= v <= 1)%Q
     ∧ (Qabs (v - clamp01
                    (mean (map similarity
                             (search_documents nav (Py.strip q) 5))
                     * (3 # 2)))
        <= print_tolerance)%Q)
  ∧ (0 < clamp01
           (mean (map similarity (search_documents nav (Py.strip q) 5))
            * (3 # 2)))%Q
  ∧ ∀ req, ∃ sent,
      (∃ body, query_literature nav req = (Reply body, sent))
      ∨ (∃ error, query_literature nav req = (Failure 400 error, sent))
      ∨ (∃ error, query_literature nav req = (Failure 500 error, sent)).
Proof.
  intros Hm Hne Herr.
  pose proof (search_similarities_pos nav (Py.strip q) 5) as Hpos.
  assert (Htarget : (0 < clamp01
                          (mean (map similarity
                                   (search_documents nav (Py.strip q) 5))
                           * (3 # 2)))%Q).
  { apply clamp01_pos, Qmult_lt_0_compat; [|reflexivity].
    apply mean_pos; [by destruct (search_documents nav (Py.strip q) 5)|].
    eapply Forall_impl; [exact Hpos|]. by intros x [Hx _]. }
  split_and!.
  - destruct (search_confidence_near nav (Py.strip q) Hne) as [Hone Hnear].
    destruct (printed_confidence _ _ Hone Hnear)
      as (v & Hshape & Hread & Hunit & Hv).
    eexists _, v. split_and!.
    + rewrite query_literature_evidence by done.
      unfold generate_answer. rewrite Hm, Herr. reflexivity.
    + done.
    + simpl. by rewrite map_map.
    + intros text. do 2 eexists. split.
      * by apply (query_literature_evidence
                    {| model := Some (λ _, Generated text);
                       documents := documents nav |}).
      * split; reflexivity.
    + exact Hshape.
    + exact Hread.
    + apply Hunit.
    + apply Hunit.
    + exact Hv.
  - exact Htarget.
  - intros [e|field].
    + exists []. right. right. by eexists.
    + destruct (search_documents nav (Py.strip (default "" field)) 5)
        as [|r rs] eqn:Hrs.
      * exists []. unfold query_literature.
        destruct (Py.strip (default "" field)) as [|c question];
          [right; left; by eexists|].
        rewrite Hrs. left. by eexists.
      * assert (Hfield : ∃ q', field = Some q').
        { destruct field as [q'|]; [by eexists|].
          simpl in Hrs. by rewrite search_blank in Hrs. }
        destruct Hfield as [q' ->]. simpl in Hrs.
        eexists. left. eexists.
        apply query_literature_evidence. by rewrite Hrs.
Qed.

(** C3, as stated, fails: with a failing backend the answer carries the
    failure message and the confidence of the evidence, here ["0.30"]. *)
Lemma backend_failure_keeps_confidence :
  ∃ body sent,
    query_literature (Demo.after_a (Some Demo.broken)) (Ask (Some "retrieval"))
    = (Reply body, sent)
    ∧ answer body = "Error generating answer: quota exceeded"
    ∧ confidence body = "0.30"
    ∧ confidence body ≠ "0.00".
Proof. do 2 eexists. split; [by vm_compute | by vm_compute]. Qed.

(** C6, as the code has it. For every question whose search returns
    evidence, the confidence of the answer is a number printed with two
    decimals, a digit, a point and two digits: it reads as a number
    between 0 and 1, at most [print_tolerance] (half a unit of the second
    decimal, and the rounding of the floating-point operations) away from
    the mean of the similarities of the evidence scaled by the factor of
    the handler (3/2 in the simple application, 6/5 in the web application)
    and clamped to the unit interval; and it is the same whatever the
    generation backend is or returns. So the confidence is the clamped
    scaled mean rounded to two decimals, except where that number is
    within the rounding of the operations of an odd multiple of 1/200:
    there either neighbour can be printed. For the web application, whose
    retriever is a parameter, this holds when the retriever returns at
    most the five results it is asked for, with scores between 0 and 1. *)
Theorem confidence_from_evidence (nav : navigator) (app : WebApp.web_app)
    (q : string) (found : list WebApp.retrieval_result) :
  (search_documents nav (Py.strip q) 5 ≠ [] →
   ∃ (printed : string) (v : Q),
     (∀ m' : option backend, ∃ body sent,
        query_literature {| model := m'; documents := documents nav |}
          (Ask (Some q)) = (Reply body, sent)
        ∧ confidence body = printed)
     ∧ two_decimal printed = true
     ∧ read_fixed printed = Some v
     ∧ (0 <= v <= 1)%Q
     ∧ (Qabs (v - clamp01
                    (mean (map similarity
                             (search_documents nav (Py.strip q) 5))
                     * (3 # 2)))
        <= print_tolerance)%Q)
  ∧ (Py.strip q ≠ "" →
     WebApp.retrieve app (Py.strip q) 5%Z = WebApp.Retrieved found →
     found ≠ [] →
     (length found ≤ 5)%nat →
     Forall (λ r, (0 <= WebApp.similarity_score r <= 1)%Q) found →
     ∃ (printed : string) (v : Q),
       (∀ m' : option backend, ∃ body sent,
          WebApp.query_literature
            (Some {| WebApp.retrieve := WebApp.retrieve app;
                     WebApp.gemini_model := m' |})
            (Ask (Some q)) = (WebApp.Reply body, sent)
          ∧ WebApp.confidence body = WebApp.Str printed)
       ∧ two_decimal printed = true
       ∧ read_fixed printed = Some v
       ∧ (0 <= v <= 1)%Q
       ∧ (Qabs (v - clamp01
                      (mean (map WebApp.similarity_score found) * (6 # 5)))
          <= print_tolerance)%Q).
Proof.
  split.
  - intros Hne.
    destruct (search_confidence_near nav (Py.strip q) Hne) as [Hone Hnear].
    destruct (printed_confidence _ _ Hone Hnear)
      as (v & Hshape & Hread & Hunit & Hv).
    exists (Py.format_f 2
              (confidence_score (search_documents nav (Py.strip q) 5))), v.
    split; [|exact (conj Hshape (conj Hread (conj Hunit Hv)))].
    intros m'. do 2 eexists. split.
    + by apply (query_literature_evidence
                  {| model := m'; documents := documents nav |}).
    + simpl. by rewrite search_documents_model.
  - intros Hq Hfound Hfne Hfive Hscores.
    destruct (web_confidence_near found Hfne Hfive Hscores) as [Hone Hnear].
    destruct (printed_confidence _ _ Hone Hnear)
      as (v & Hshape & Hread & Hunit & Hv).
    exists (Py.format_f 2 (WebApp.confidence_score found)), v.
    split; [|exact (conj Hshape (conj Hread (conj Hunit Hv)))].
    intros m'.
    destruct (web_query_evidence
                {| WebApp.retrieve := WebApp.retrieve app;
                   WebApp.gemini_model := m' |} q found Hq Hfound Hfne)
      as (text & sent & ->).
    by do 2 eexists.
Qed.

(** C6, as stated, fails: the confidence is not the clamped scaled mean
    itself, nor that number rounded to two decimals. With one result of
    similarity 11/20 the clamped scaled mean is 33/40, which rounds to
    ["0.82"], and the handler answers ["0.83"], the double nearest to 11/20
    being above it. With one result of score 1/16 the clamped scaled mean
    is 3/40, which rounds to ["0.08"], and the handler of the web
    application answers ["0.07"], the double [1.2] being below 6/5. *)
Lemma confidence_is_rounded :
  (∃ body sent v,
     query_literature (Demo.twenty_nav (Some Demo.echo))
       (Ask (Some Demo.eleven)) = (Reply body, sent)
     ∧ map similarity
         (search_documents (Demo.twenty_nav (Some Demo.echo))
            (Py.strip Demo.eleven) 5) = [11 # 20]
     ∧ confidence body = "0.83"
     ∧ read_fixed (confidence body) = Some v
     ∧ ¬ (v == clamp01 (mean [11 # 20] * (3 # 2)))%Q
     ∧ Py.format_f 2 (clamp01 (mean [11 # 20] * (3 # 2))) = "0.82")
  ∧ (∃ body sent,
       WebApp.query_literature (Some (Demo.web Demo.sixteenth))
         (Ask (Some "dense")) = (WebApp.Reply body, sent)
       ∧ map WebApp.similarity_score Demo.sixteenth = [1 # 16]
       ∧ WebApp.confidence body = WebApp.Str "0.07"
       ∧ Py.format_f 2 (clamp01 (mean [1 # 16] * (6 # 5))) = "0.08").
Proof.
  split.
  - do 3 eexists. split_and!; [by vm_compute | by vm_compute | by vm_compute
                              | by vm_compute | | by vm_compute].
    intros H. vm_compute in H. discriminate.
  - do 2 eexists. split_and!; by vm_compute.
Qed.

End AnswerProperties.

(** ** The theorems at work on the running examples *)

Section Witnesses.
Import SimpleApp.

Lemma no_evidence_answer_witness :
  Py.strip " quantum " ≠ ""
  ∧ search_documents (Demo.after_ab (Some Demo.echo)) (Py.strip " quantum ") 5
    = []
  ∧ query_literature (Demo.after_ab (Some Demo.echo)) (Ask (Some " quantum "))
    = (Reply no_evidence, [])
  ∧ WebApp.query_literature (Some (Demo.web [])) (Ask (Some " quantum "))
    = (WebApp.Reply WebApp.no_evidence, []).
Proof.
  assert (Hq : Py.strip " quantum " ≠ "") by (by vm_compute).
  assert (Hnone : search_documents (Demo.after_ab (Some Demo.echo))
                    (Py.strip " quantum ") 5 = []) by (by vm_compute).
  destruct (no_evidence_answer (Demo.after_ab (Some Demo.echo)) (Demo.web [])
              " quantum " Hq) as (Hsimple & _ & Hweb & _).
  split_and!; [exact Hq | exact Hnone | exact (Hsimple Hnone) |].
  apply Hweb. reflexivity.
Defined.

Lemma backend_failure_answer_witness :
  model (Demo.after_a (Some Demo.broken)) = Some Demo.broken
  ∧ search_documents (Demo.after_a (Some Demo.broken)) (Py.strip "retrieval") 5
    ≠ []
  ∧ ∃ body v,
      (query_literature (Demo.after_a (Some Demo.broken))
         (Ask (Some "retrieval"))).1 = Reply body
      ∧ answer body = "Error generating answer: quota exceeded"
      ∧ read_fixed (confidence body) = Some v
      ∧ (Qabs (v - clamp01
                     (mean (map similarity
                              (search_documents
                                 (Demo.after_a (Some Demo.broken))
                                 (Py.strip "retrieval") 5))
                      * (3 # 2)))
         <= print_tolerance)%Q.
Proof.
  assert (Hm : model (Demo.after_a (Some Demo.broken)) = Some Demo.broken)
    by reflexivity.
  assert (Hne : search_documents (Demo.after_a (Some Demo.broken))
                  (Py.strip "retrieval") 5 ≠ []) by (by vm_compute).
  destruct (backend_failure_answer (Demo.after_a (Some Demo.broken))
              Demo.broken "retrieval" "quota exceeded" Hm Hne eq_refl)
    as ((body & v & Hreply & Hanswer & _ & _ & _ & Hread & _ & Hnear) & _).
  split; [exact Hm | split; [exact Hne |]].
  exists body, v. rewrite Hreply.
  exact (conj eq_refl (conj Hanswer (conj Hread Hnear))).
Defined.

Lemma confidence_from_evidence_witness :
  search_documents (Demo.after_ab (Some Demo.echo))
    (Py.strip "retrieval generation") 5 ≠ []
  ∧ Py.strip "retrieval generation" ≠ ""
  ∧ (length Demo.found ≤ 5)%nat
  ∧ Forall (λ r, (0 <= WebApp.similarity_score r <= 1)%Q) Demo.found
  ∧ (∃ printed v body sent,
       query_literature
         {| model := Some Demo.broken;
            documents := documents (Demo.after_ab (Some Demo.echo)) |}
         (Ask (Some "retrieval generation")) = (Reply body, sent)
       ∧ confidence body = printed
       ∧ read_fixed printed = Some v
       ∧ (0 <= v <= 1)%Q)
  ∧ (∃ printed v body sent,
       WebApp.query_literature
         (Some {| WebApp.retrieve := WebApp.retrieve (Demo.web Demo.found);
                  WebApp.gemini_model := None |})
         (Ask (Some "retrieval generation")) = (WebApp.Reply body, sent)
       ∧ WebApp.confidence body = WebApp.Str printed
       ∧ read_fixed printed = Some v
       ∧ (0 <= v <= 1)%Q).
Proof.
  assert (Hne : search_documents (Demo.after_ab (Some Demo.echo))
                  (Py.strip "retrieval generation") 5 ≠ [])
    by (by vm_compute).
  assert (Hq : Py.strip "retrieval generation" ≠ "") by (by vm_compute).
  assert (Hfive : (length Demo.found ≤ 5)%nat) by (simpl; lia).
  assert (Hunit : Forall (λ r, (0 <= WebApp.similarity_score r <= 1)%Q)
                    Demo.found).
  { repeat constructor; by vm_compute. }
  destruct (confidence_from_evidence (Demo.after_ab (Some Demo.echo))
              (Demo.web Demo.found) "retrieval generation" Demo.found)
    as (Hsimple & Hweb).
  destruct (Hsimple Hne) as (printed & v & Hall & _ & Hread & Hv & _).
  destruct (Hall (Some Demo.broken)) as (body & sent & Hreply & Hprinted).
  destruct (Hweb Hq eq_refl ltac:(discriminate) Hfive Hunit)
    as (wprinted & w & Hwall & _ & Hwread & Hw & _).
  destruct (Hwall None) as (wbody & wsent & Hwreply & Hstr).
  repeat (split; [assumption|]). split.
  - exists printed, v, body, sent.
    exact (conj Hreply (conj Hprinted (conj Hread Hv))).
  - exists wprinted, w, wbody, wsent.
    exact (conj Hwreply (conj Hstr (conj Hwread Hw))).
Defined.

Lemma search_edge_cases_witness :
  search_documents (Demo.empty_nav None) "retrieval" 5 = []
  ∧ search_documents (Demo.after_ab None) "quantum" 5 = []
  ∧ length (search_documents (Demo.after_ab None) "retrieval generation" 5)
    = length (matches "retrieval generation" (documents (Demo.after_ab None)))
  ∧ (Z.of_nat
       (length (search_documents (Demo.after_ab None) "retrieval generation" 1))
     ≤ 1)%Z.
Proof.
  destruct (search_edge_cases (Demo.empty_nav None) "retrieval" 5)
    as (Hempty & _).
  destruct (search_edge_cases (Demo.after_ab None) "quantum" 5)
    as (_ & Hfloor & _).
  destruct (search_edge_cases (Demo.after_ab None) "retrieval generation" 5)
    as (_ & _ & Hall & _).
  destruct (search_edge_cases (Demo.after_ab None) "retrieval generation" 1)
    as (_ & _ & _ & Htop & _).
  split_and!.
  - apply Hempty. reflexivity.
  - apply Hfloor. repeat constructor.
  - apply Hall. by vm_compute.
  - apply Htop. lia.
Defined.

Lemma search_deterministic_witness :
  documents (Demo.after_ab None) = documents (Demo.after_ab (Some Demo.echo))
  ∧ search_documents (Demo.after_ab None) "retrieval generation" 3
    = search_documents (Demo.after_ab (Some Demo.echo)) "retrieval generation" 3.
Proof.
  assert (Hdocs : documents (Demo.after_ab None)
                  = documents (Demo.after_ab (Some Demo.echo)))
    by reflexivity.
  split; [exact Hdocs|].
  exact (proj1 (search_deterministic (Demo.after_ab None)
                  (Demo.after_ab (Some Demo.echo)) "retrieval generation" 3
                  Hdocs)).
Defined.

End Witnesses.

(** ** Further properties of the chunker *)

Section ChunkerEdges.
Import SimpleApp.

Lemma split_from_nil (s w : string) :
  Py.split_from w s = [] ↔ w = "" ∧ allspace s = true.
Proof.
  revert w. induction s as [|c s IH]; intros w; simpl.
  - destruct w; simpl; split; try done. by intros [? _].
  - destruct (Py.isspace c) eqn:Hc; simpl.
    + destruct w as [|d w]; simpl.
      * rewrite IH. done.
      * split; [done | by intros [? _]].
    + rewrite IH. split; [|by intros [_ ?]].
      intros [Hw _]. by destruct w.
Qed.

Lemma split_nil (s : string) : Py.split s = [] ↔ allspace s = true.
Proof.
  unfold Py.split. rewrite split_from_nil.
  split; [by intros [_ ?] | done].
Qed.

Lemma concat_nil_nonempty {A} (ls : list (list A)) :
  Forall (λ l, l ≠ []) ls → concat ls = [] → ls = [].
Proof.
  intros Hne Hcat. destruct Hne as [|l ls Hl _]; [done|].
  simpl in Hcat. by apply app_eq_nil in Hcat as [? _].
Qed.

(** A text gives no chunk exactly when it has no word: it is empty or made
    of white space only. Any other text gives at least one chunk. *)
Theorem create_chunks_nil (content : string) (chunk_size : Z) :
  create_chunks content chunk_size = [] ↔ allspace content = true.
Proof.
  rewrite <- split_nil.
  destruct (create_chunks_groups content chunk_size)
    as (groups & rest & -> & Hcat & Hclosed & Hrest).
  pose proof (create_chunks_groups_nonempty _ _ _ Hclosed Hrest) as Hne.
  split.
  - intros Hnil. apply map_eq_nil in Hnil. by rewrite <- Hcat, Hnil.
  - intros Hnil. rewrite Hnil in Hcat.
    by rewrite (concat_nil_nonempty _ Hne Hcat).
Qed.

Lemma fold_one_per_word (chunk_size : Z) (ws acc : list string) :
  (chunk_size ≤ 2)%Z → Forall is_word ws →
  fold_left (chunk_step chunk_size) ws (acc, [], 0%Z) = (acc ++ ws, [], 0%Z).
Proof.
  intros Hcs Hws. revert acc.
  induction Hws as [|w ws [Hw _] _ IH]; intros acc; simpl.
  - by rewrite app_nil_r.
  - assert (Hlen : (1 ≤ Py.len w)%Z).
    { unfold Py.len. destruct w; [done|]. simpl. lia. }
    destruct (Z.leb_spec chunk_size (0 + (Py.len w + 1))); [|lia].
    change (Py.join " " [w]) with w. by rewrite IH, <- app_assoc.
Qed.

(** With a target size of 2 or less, zero and negative sizes included,
    every word closes its chunk: the chunks are the words of the text. *)
Theorem create_chunks_tiny_target (content : string) (chunk_size : Z) :
  (chunk_size ≤ 2)%Z → create_chunks content chunk_size = Py.split content.
Proof.
  intros Hcs. unfold create_chunks.
  by rewrite fold_one_per_word by (done || apply split_words).
Qed.

Lemma create_chunks_tiny_target_witness :
  (0 ≤ 2)%Z
  ∧ create_chunks " to be or  not " 0 = ["to"; "be"; "or"; "not"].
Proof.
  assert (H : (0 ≤ 2)%Z) by lia.
  split; [exact H|].
  exact (create_chunks_tiny_target " to be or  not " 0 H).
Defined.

Lemma fold_below_target (chunk_size : Z) (ws cur chunks : list string) :
  (wsize (cur ++ ws) < chunk_size)%Z →
  fold_left (chunk_step chunk_size) ws (chunks, cur, wsize cur)
  = (chunks, cur ++ ws, wsize (cur ++ ws)).
Proof.
  revert cur. induction ws as [|w ws IH]; intros cur Hlt; simpl.
  - by rewrite app_nil_r.
  - replace (cur ++ w :: ws) with ((cur ++ [w]) ++ ws) in *
      by (by rewrite <- app_assoc).
    assert (Hw : (wsize cur + (Py.len w + 1))%Z = wsize (cur ++ [w])).
    { rewrite wsize_app. simpl. lia. }
    pose proof (wsize_nonneg ws). rewrite wsize_app in Hlt.
    destruct (Z.leb_spec chunk_size (wsize cur + (Py.len w + 1))); [lia|].
    rewrite Hw. apply IH. rewrite wsize_app. lia.
Qed.

(** The words of a text, each with one separator, take at most one
    character more than the text. *)
Lemma wsize_split_from (s w : string) :
  (wsize (Py.split_from w s) ≤ Py.len w + Py.len s + 1)%Z.
Proof.
  revert w. induction s as [|c s IH]; intros w; simpl.
  - destruct w; simpl; unfold Py.len; simpl; lia.
  - assert (Hs : Py.len (String c s) = (Py.len s + 1)%Z)
      by (unfold Py.len; simpl; lia).
    destruct (Py.isspace c).
    + specialize (IH ""). change (Py.len "") with 0%Z in IH.
      destruct w as [|d w]; simpl; unfold Py.len in *; simpl in *; lia.
    + specialize (IH (w +:+ String c "")). rewrite len_app in IH.
      change (Py.len (String c "")) with 1%Z in IH. lia.
Qed.

Lemma wsize_split (s : string) : (wsize (Py.split s) ≤ Py.len s + 1)%Z.
Proof.
  pose proof (wsize_split_from s ""). by change (Py.len "") with 0%Z in *.
Qed.

(** A text with a word whose length is at most the target size minus two
    gives one chunk: its words joined by single spaces. *)
Theorem create_chunks_short_text (content : string) (chunk_size : Z) :
  allspace content = false →
  (Py.len content + 1 < chunk_size)%Z →
  create_chunks content chunk_size = [Py.join " " (Py.split content)].
Proof.
  intros Hword Hlen. unfold create_chunks.
  pose proof (wsize_split content) as Hsz.
  change 0%Z with (wsize []).
  rewrite fold_below_target by (simpl; lia). simpl.
  destruct (Py.split content) as [|w ws] eqn:Hsplit; [|done].
  apply split_nil in Hsplit. congruence.
Qed.

Lemma create_chunks_short_text_witness :
  allspace "  Dense   retrieval " = false
  ∧ (Py.len "  Dense   retrieval " + 1 < default_chunk_size)%Z
  ∧ create_chunks "  Dense   retrieval " default_chunk_size
    = ["Dense retrieval"].
Proof.
  assert (H1 : allspace "  Dense   retrieval " = false) by reflexivity.
  assert (H2 : (Py.len "  Dense   retrieval " + 1 < default_chunk_size)%Z)
    by (by vm_compute).
  split_and!; [exact H1 | exact H2 |].
  exact (create_chunks_short_text "  Dense   retrieval " default_chunk_size
           H1 H2).
Defined.

Lemma closed_groups_size (chunk_size : Z) (groups : list (list string)) :
  Forall (closed chunk_size) groups →
  (Z.of_nat (length groups) * chunk_size ≤ wsize (concat groups))%Z.
Proof.
  induction 1 as [|g groups (g' & w & -> & _ & Hle) _ IH]; simpl; [lia|].
  rewrite wsize_app. lia.
Qed.

(** For a positive target size, all chunks but one account for at least
    the target each, so their number is bounded by the length of the text:
    (number of chunks - 1) x target <= length of the text + 1. There are
    never more chunks than words. *)
Theorem create_chunks_count (content : string) (chunk_size : Z) :
  (0 < chunk_size)%Z →
  ((Z.of_nat (length (create_chunks content chunk_size)) - 1) * chunk_size
   ≤ Py.len content + 1)%Z
  ∧ (length (create_chunks content chunk_size)
     ≤ length (Py.split content))%nat.
Proof.
  intros Hcs.
  destruct (create_chunks_groups content chunk_size)
    as (groups & rest & -> & Hcat & Hclosed & Hrest).
  pose proof (create_chunks_groups_nonempty _ _ _ Hclosed Hrest) as Hne.
  pose proof (closed_groups_size _ _ Hclosed) as Hsize.
  pose proof (wsize_split content) as Hlen.
  rewrite <- Hcat, concat_app, wsize_app in Hlen.
  pose proof (wsize_nonneg (concat rest)).
  rewrite length_map. split.
  - rewrite length_app.
    assert (length rest ≤ 1)%nat
      by (destruct Hrest as [->|(g & -> & _)]; simpl; lia).
    nia.
  - rewrite <- Hcat. clear -Hne.
    induction Hne as [|g gs Hg _ IH]; simpl; [lia|].
    rewrite length_app. destruct g; [done|]. simpl. lia.
Qed.

Lemma create_chunks_count_witness :
  (0 < 6)%Z
  ∧ ((Z.of_nat (length (create_chunks "aa bb cc dd e" 6)) - 1) * 6
     ≤ Py.len "aa bb cc dd e" + 1)%Z.
Proof.
  assert (H : (0 < 6)%Z) by lia.
  split; [exact H|].
  exact (proj1 (create_chunks_count "aa bb cc dd e" 6 H)).
Defined.

End ChunkerEdges.

(** ** Further properties of the search *)

Section SearchFacts.
Import SimpleApp.

Lemma matches_overlap (query : string) (docs : list document)
    (m : document * string) :
  m ∈ matches query docs →
  m.1 ∈ docs ∧ m.2 ∈ chunks m.1 ∧ (0 < overlap_of query m.2)%nat.
Proof.
  unfold matches. rewrite list_elem_of_In, in_flat_map.
  intros (doc & Hdoc & Hm). apply in_map_iff in Hm as (chunk & <- & Hc).
  apply filter_In in Hc as [Hc Hpos]. simpl.
  rewrite <- !list_elem_of_In in *. split_and!; [done | done |].
  by apply Nat.ltb_lt.
Qed.

Lemma truediv_one (a b : Z) :
  (0 < b)%Z → Py.truediv a b = 1%Q ↔ a = b.
Proof.
  intros Hb. unfold Py.truediv. split.
  - intros H. assert (Hq : (inject_Z a / inject_Z b == 1)%Q)
      by (by rewrite <- Qred_correct, H).
    unfold Qeq, Qdiv, Qmult, Qinv in Hq. destruct b as [|b|b]; try lia.
    simpl in Hq. lia.
  - intros ->. change 1%Q with (Qred 1). apply Qred_complete.
    unfold Qeq, Qdiv, Qmult, Qinv. destruct b as [|b|b]; try lia.
    simpl. lia.
Qed.

Lemma same_sets_iff (X Y : gset string) :
  size (X ∩ Y) = size (X ∪ Y) ↔ Y = X.
Proof.
  split.
  - intros Hsize.
    assert (Heq : X ∩ Y = X ∪ Y).
    { apply set_subseteq_size_eq; [|lia].
      intros x [Hx _]%elem_of_intersection. apply elem_of_union. by left. }
    apply set_eq. intros x. split; intros Hx.
    + assert (Hu : x ∈ X ∪ Y) by (apply elem_of_union; by right).
      rewrite <- Heq in Hu. by apply elem_of_intersection in Hu as [? _].
    + assert (Hu : x ∈ X ∪ Y) by (apply elem_of_union; by left).
      rewrite <- Heq in Hu. by apply elem_of_intersection in Hu as [_ ?].
  - intros ->. f_equal. apply set_eq. intros x.
    rewrite elem_of_intersection, elem_of_union. tauto.
Qed.

(** A returned result has similarity exactly 1 when, and only when, its
    chunk and the query have the same set of lower-cased words. *)
Theorem similarity_one_iff (nav : navigator) (query : string) (top_k : Z) :
  Forall (λ r, similarity r = 1%Q ↔ word_set (r_content r) = word_set query)
    (search_documents nav query top_k).
Proof.
  apply Forall_forall. intros r Hr. apply search_subseteq in Hr.
  rewrite candidates_matches in Hr.
  apply list_elem_of_fmap in Hr as ([doc chunk] & -> & Hm).
  apply matches_overlap in Hm as (_ & _ & Hpos). simpl in *.
  unfold overlap_of in *.
  pose proof (overlap_le_union (word_set query) (word_set chunk)).
  rewrite truediv_one by lia. rewrite <- same_sets_iff. lia.
Qed.

Lemma lower_char_idemp (c : ascii) :
  Py.lower_char (Py.lower_char c) = Py.lower_char c.
Proof. destruct c as [[] [] [] [] [] [] [] []]; reflexivity. Qed.

Lemma lower_idemp (s : string) : Py.lower (Py.lower s) = Py.lower s.
Proof.
  induction s as [|c s IH]; simpl; [done|].
  by rewrite lower_char_idemp, IH.
Qed.

(** The search ignores the case of the query, and it depends on the query
    through the set of its lower-cased words only: the order of the words,
    their repetition and the white space between them do not matter. *)
Theorem search_query_insensitive (nav : navigator) (query : string)
    (top_k : Z) :
  search_documents nav (Py.lower query) top_k
  = search_documents nav query top_k
  ∧ ∀ query',
      (∀ w, w ∈ Py.split (Py.lower query') ↔ w ∈ Py.split (Py.lower query)) →
      search_documents nav query' top_k = search_documents nav query top_k.
Proof.
  split.
  - unfold search_documents, word_set. by rewrite lower_idemp.
  - intros query' Hwords.
    assert (Hset : word_set query' = word_set query).
    { apply set_eq. intros w. unfold word_set.
      rewrite !elem_of_list_to_set. apply Hwords. }
    unfold search_documents. by rewrite Hset.
Qed.

(** Whatever [top_k] is, the returned results are the best ones: the
    results of the matching chunks are the returned list followed by the
    ones left out, and none left out has a higher similarity than one that
    is returned. *)
Theorem search_keeps_best (nav : navigator) (query : string) (top_k : Z) :
  ∃ rest,
    map (result_of query) (matches query (documents nav))
      ≡ₚ search_documents nav query top_k ++ rest
    ∧ Forall (λ r, Forall (λ r', (similarity r' <= similarity r)%Q) rest)
        (search_documents nav query top_k).
Proof.
  rewrite search_documents_eq, <- candidates_matches.
  set (sorted := Py.sort_reverse similarity
                   (candidates (word_set query) (documents nav))).
  destruct (slice_to_take sorted top_k) as [n ->].
  exists (drop n sorted). split.
  - rewrite take_drop. symmetry. apply sort_reverse_perm.
  - pose proof (sort_reverse_nonincreasing similarity
                  (candidates (word_set query) (documents nav))) as Hs.
    fold sorted in Hs. rewrite <- (take_drop n sorted) in Hs.
    apply StronglySorted_app in Hs as (Hcross & _ & _).
    apply Forall_forall. intros r Hr. apply Forall_forall. intros r' Hr'.
    by apply Hcross.
Qed.

Lemma candidates_app (qw : gset string) (docs docs' : list document) :
  candidates qw (docs ++ docs') = candidates qw docs ++ candidates qw docs'.
Proof. unfold candidates. by rewrite flat_map_app. Qed.

Lemma score_no_overlap (query : string) (doc : document) (cs : list string) :
  Forall (λ chunk, overlap_of query chunk = 0%nat) cs →
  flat_map (score (word_set query) doc) cs = [].
Proof.
  induction 1 as [|c cs Hc _ IH]; simpl; [done|]. rewrite IH, app_nil_r.
  destruct (score_cases (word_set query) doc c) as [[_ ->]|[Hpos _]]; [done|].
  unfold overlap_of in Hc. lia.
Qed.

(** Adding a document whose chunks share no word with the query leaves the
    results of that query as they were; and whatever is added, when [top_k]
    covers all the matches of the grown collection, every result returned
    before is still returned. *)
Theorem search_after_ingestion (nav : navigator) (fs : filesystem)
    (filename title content query : string) (top_k : Z) :
  (Forall (λ chunk, overlap_of query chunk = 0%nat)
     (create_chunks content default_chunk_size) →
   search_documents (add_document nav fs filename title content).1.2
     query top_k
   = search_documents nav query top_k)
  ∧ ((Z.of_nat
        (length
           (matches query
              (documents (add_document nav fs filename title content).1.2)))
      ≤ top_k)%Z →
     ∀ k, search_documents nav query k
          ⊆ search_documents (add_document nav fs filename title content).1.2
              query top_k).
Proof.
  simpl. split.
  - intros Hnone. rewrite !search_documents_eq. simpl.
    rewrite candidates_app. unfold candidates at 2. simpl.
    by rewrite score_no_overlap, !app_nil_r.
  - intros Hk k r Hr. apply search_subseteq in Hr.
    rewrite search_documents_eq, slice_to_all.
    + rewrite sort_reverse_perm. simpl. rewrite candidates_app.
      apply elem_of_app. by left.
    + by rewrite sort_reverse_length, candidates_matches, length_map.
Qed.

Lemma search_after_ingestion_witness :
  search_documents (Demo.after_ab None) "generation" 5
  = search_documents (Demo.after_a None) "generation" 5
  ∧ search_documents (Demo.after_a None) "retrieval" 1
    ⊆ search_documents (Demo.after_ab None) "retrieval" 5.
Proof.
  split.
  - apply (proj1 (search_after_ingestion (Demo.after_a None) Demo.disk
                    "b.pdf" "b" "Dense retrieval with transformers"
                    "generation" 5)).
    repeat constructor.
  - apply (proj2 (search_after_ingestion (Demo.after_a None) Demo.disk
                    "b.pdf" "b" "Dense retrieval with transformers"
                    "retrieval" 5)).
    by vm_compute.
Defined.

End SearchFacts.

(** ** Further properties of the handlers *)

Section HandlerFacts.
Import SimpleApp.

Lemma rev_string_app (a b : string) :
  Py.rev_string (a +:+ b) = Py.rev_string b +:+ Py.rev_string a.
Proof.
  induction a as [|c a IH]; simpl.
  - by rewrite str_app_nil_l, str_app_nil_r.
  - by rewrite IH, str_app_assoc.
Qed.

Lemma rev_string_involutive (s : string) : Py.rev_string (Py.rev_string s) = s.
Proof.
  induction s as [|c s IH]; simpl; [done|].
  by rewrite rev_string_app, IH.
Qed.

Lemma lstrip_snoc (a : string) (c : ascii) :
  Py.isspace c = false →
  Py.lstrip (a +:+ String c "") = Py.lstrip a +:+ String c "".
Proof.
  intros Hc. induction a as [|d a IH].
  - rewrite str_app_nil_l. simpl. by rewrite Hc.
  - rewrite str_app_cons. simpl. destruct (Py.isspace d); [done|].
    by rewrite str_app_cons.
Qed.

Lemma lstrip_idemp (s : string) : Py.lstrip (Py.lstrip s) = Py.lstrip s.
Proof.
  induction s as [|c s IH]; simpl; [done|].
  destruct (Py.isspace c) eqn:Hc; [done|]. simpl. by rewrite Hc.
Qed.

Lemma lstrip_head (s : string) :
  Py.lstrip s = ""
  ∨ ∃ c t, Py.lstrip s = String c t ∧ Py.isspace c = false.
Proof.
  induction s as [|c s IH]; simpl; [by left|].
  destruct (Py.isspace c) eqn:Hc; [done|]. right. eauto.
Qed.

Lemma strip_head (c : ascii) (t : string) :
  Py.isspace c = false →
  Py.rev_string (Py.lstrip (Py.rev_string (String c t)))
  = String c (Py.rev_string (Py.lstrip (Py.rev_string t))).
Proof.
  intros Hc. simpl. rewrite lstrip_snoc by done.
  by rewrite rev_string_app.
Qed.

(** Stripping twice is stripping once. *)
Lemma strip_idemp (s : string) : Py.strip (Py.strip s) = Py.strip s.
Proof.
  unfold Py.strip. destruct (lstrip_head s) as [->|(c & t & -> & Hc)]; [done|].
  rewrite strip_head by done. simpl. rewrite Hc.
  rewrite strip_head by done. f_equal.
  by rewrite rev_string_involutive, lstrip_idemp.
Qed.

(** Both handlers ignore the white space around the question: the
    response and the prompts sent are those of the stripped question. *)
Theorem question_is_stripped (nav : navigator) (nav_app : option WebApp.web_app)
    (q : string) :
  query_literature nav (Ask (Some (Py.strip q)))
  = query_literature nav (Ask (Some q))
  ∧ WebApp.query_literature nav_app (Ask (Some (Py.strip q)))
    = WebApp.query_literature nav_app (Ask (Some q)).
Proof.
  unfold query_literature, WebApp.query_literature. simpl.
  by rewrite strip_idemp.
Qed.

Lemma contains_head (x b : string) : contains (x +:+ b) x.
Proof. exists "", b. by rewrite str_app_nil_l. Qed.

Lemma contains_tail (a t x : string) : contains t x → contains (a +:+ t) x.
Proof.
  intros (before & after & ->). exists (a +:+ before), after.
  by rewrite str_app_assoc.
Qed.

Lemma contains_front (t b x : string) : contains t x → contains (t +:+ b) x.
Proof.
  intros (before & after & ->). exists before, (after +:+ b).
  by rewrite !str_app_assoc.
Qed.

Lemma contains_join (sep x : string) (l : list string) :
  x ∈ l → contains (Py.join sep l) x.
Proof.
  induction l as [|y l IH]; intros Hx; [by apply elem_of_nil in Hx|].
  destruct l as [|z l].
  - apply list_elem_of_singleton in Hx as ->.
    exists "", "". by rewrite str_app_nil_l, str_app_nil_r.
  - rewrite join_cons. apply elem_of_cons in Hx as [->|Hx].
    + apply contains_head.
    + by apply contains_tail, contains_tail, IH.
Qed.

Lemma prompt_contains (question : string) (rs : list result) (r : result) :
  contains (prompt_of question (context_of rs)) question
  ∧ (r ∈ rs → contains (prompt_of question (context_of rs)) (evidence_block r)).
Proof.
  unfold prompt_of. split.
  - do 4 apply contains_tail. apply contains_head.
  - intros Hr. do 9 apply contains_tail. apply contains_front.
    unfold context_of. apply contains_join.
    apply (list_elem_of_fmap_2 evidence_block) in Hr. exact Hr.
Qed.

(** The simple handler calls the generation backend at most once for a
    request, and only for a question that retrieves evidence while a model
    is set up; the prompt it sends then carries the stripped question and,
    for every retrieved result, its title and its whole chunk. *)
Theorem backend_call_discipline (nav : navigator) (req : request) :
  (length (query_literature nav req).2 ≤ 1)%nat
  ∧ ((query_literature nav req).2 ≠ [] ↔
     ∃ q m, req = Ask (Some q) ∧ model nav = Some m
            ∧ search_documents nav (Py.strip q) 5 ≠ [])
  ∧ ∀ p, p ∈ (query_literature nav req).2 →
      ∃ q, req = Ask (Some q)
           ∧ contains p (Py.strip q)
           ∧ Forall (λ r, contains p (evidence_block r))
               (search_documents nav (Py.strip q) 5).
Proof.
  destruct req as [err|[q|]].
  - simpl. split_and!; [lia | | by intros p Hp%elem_of_nil].
    split; [done | by intros (? & ? & ? & _)].
  - destruct (search_documents nav (Py.strip q) 5) as [|r rs] eqn:Hrs.
    + assert (Hsent : (query_literature nav (Ask (Some q))).2 = []).
      { unfold query_literature. simpl.
        destruct (Py.strip q); [done|]. by rewrite Hrs. }
      rewrite Hsent. simpl. split_and!; [lia | | by intros p Hp%elem_of_nil].
      split; [done|]. intros (q' & m & [= <-] & _ & Hne). congruence.
    + rewrite query_literature_evidence by (by rewrite Hrs).
      rewrite Hrs. simpl. unfold generate_answer.
      destruct (model nav) as [m|] eqn:Hm.
      * assert (Hprompt :
          contains (prompt_of (Py.strip q) (context_of (r :: rs))) (Py.strip q)
          ∧ Forall (λ r', contains (prompt_of (Py.strip q)
                                      (context_of (r :: rs)))
                            (evidence_block r')) (r :: rs)).
        { split; [apply (prompt_contains _ _ r)|].
          apply Forall_forall. intros r' Hr'. by apply prompt_contains. }
        destruct (m _); simpl; (split_and!; [lia | |]).
        -- split; [intros _; exists q, m; by rewrite Hrs | done].
        -- intros p ->%list_elem_of_singleton. exists q. rewrite Hrs.
           by destruct Hprompt.
        -- split; [intros _; exists q, m; by rewrite Hrs | done].
        -- intros p ->%list_elem_of_singleton. exists q. rewrite Hrs.
           by destruct Hprompt.
      * simpl. split_and!; [lia | | by intros p Hp%elem_of_nil].
        split; [done | by intros (? & ? & _ & ? & _)].
  - simpl. split_and!; [lia | | by intros p Hp%elem_of_nil].
    split; [done | by intros (? & ? & ? & _)].
Qed.

(** The web handler calls the generation backend at most once, and only
    when the system is initialised, the question is not blank, the
    retriever returned at least one result and a model is set up: a blank
    question, an uninitialised system, a retriever that raises and an empty
    retrieval never reach the backend. An uninitialised system never
    answers with status 200, and an error of the retriever is reported with
    status 500. *)
Theorem web_backend_call_discipline (nav_app : option WebApp.web_app)
    (req : request) :
  (length (WebApp.query_literature nav_app req).2 ≤ 1)%nat
  ∧ ((WebApp.query_literature nav_app req).2 ≠ [] →
     ∃ app q results m,
       nav_app = Some app ∧ req = Ask (Some q) ∧ Py.strip q ≠ ""
       ∧ WebApp.retrieve app (Py.strip q) 5%Z = WebApp.Retrieved results
       ∧ results ≠ [] ∧ WebApp.gemini_model app = Some m)
  ∧ (nav_app = None → ∃ status error,
       WebApp.query_literature nav_app req
       = (WebApp.Failure status error, []))
  ∧ (∀ app q err,
       nav_app = Some app → req = Ask (Some q) → Py.strip q ≠ "" →
       WebApp.retrieve app (Py.strip q) 5%Z = WebApp.RetrieveRaised err →
       WebApp.query_literature nav_app req
       = (WebApp.Failure 500 ("Error processing query: " +:+ err), [])).
Proof.
  split_and!.
  - unfold WebApp.query_literature.
    destruct req as [err|field]; simpl; [lia|].
    destruct (Py.strip (default "" field)); simpl; [lia|].
    destruct nav_app as [app|]; simpl; [|lia].
    destruct (WebApp.retrieve app _ _) as [[|r rs]|err]; simpl; try lia.
    unfold WebApp.generate_answer.
    destruct (WebApp.gemini_model app) as [m|]; simpl; [|lia].
    destruct (m _); simpl; lia.
  - unfold WebApp.query_literature.
    destruct req as [err|[q|]]; simpl; try done.
    destruct (Py.strip q) as [|c question] eqn:Hq; simpl; [done|].
    destruct nav_app as [app|]; simpl; [|done].
    destruct (WebApp.retrieve app _ _) as [[|r rs]|err] eqn:Hret;
      simpl; try done.
    unfold WebApp.generate_answer.
    destruct (WebApp.gemini_model app) as [m|] eqn:Hm; simpl; [|done].
    intros _. exists app, q, (r :: rs), m. rewrite Hq. by split_and!.
  - intros ->. unfold WebApp.query_literature.
    destruct req as [err|field]; simpl; [by do 2 eexists|].
    destruct (Py.strip (default "" field)); by do 2 eexists.
  - intros app q err -> -> Hq Hret. unfold WebApp.query_literature. simpl.
    destruct (Py.strip q); [done|]. by rewrite Hret.
Qed.

Lemma length_str_prefix (k : nat) (s : string) :
  String.length (Py.str_prefix k s) = Nat.min k (String.length s).
Proof.
  unfold Py.str_prefix.
  assert (H : ∀ n t, (n ≤ String.length t)%nat →
                     String.length (String.substring 0 n t) = n).
  { intros n t. revert n. induction t as [|c t IH]; intros [|n] Hn; simpl in *;
      try done; try lia. rewrite IH; [done | lia]. }
  apply H. lia.
Qed.

(** A reply of the simple handler lists at most five sources, one for each
    retrieved result and in their order; every source is labelled with the
    section ["Content"], and its preview is the first 200 characters of the
    chunk followed by three dots, so at most 203 characters. *)
Theorem reply_sources_bounded (nav : navigator) (req : request)
    (body : payload) (sent : list string) :
  query_literature nav req = (Reply body, sent) →
  (length (sources body) ≤ 5)%nat
  ∧ Forall (λ src, s_section src = "Content"
                   ∧ (String.length (s_content src) ≤ 203)%nat)
      (sources body)
  ∧ ∃ q, req = Ask (Some q)
         ∧ Forall2 (λ src r, s_title src = r_title r
                             ∧ s_content src
                               = Py.str_prefix 200 (r_content r) +:+ "...")
             (sources body) (search_documents nav (Py.strip q) 5).
Proof.
  intros Hreply. destruct req as [err|[q|]]; try done.
  pose proof (slice_to_length_top
                (Py.sort_reverse similarity
                   (candidates (word_set (Py.strip q)) (documents nav))) 5)
    as Hlen.
  rewrite <- search_documents_eq in Hlen. specialize (Hlen ltac:(lia)).
  destruct (search_documents nav (Py.strip q) 5) as [|r rs] eqn:Hrs.
  - unfold query_literature in Hreply. simpl in Hreply.
    destruct (Py.strip q) eqn:Hq; [done|]. rewrite Hrs in Hreply.
    injection Hreply as <- <-. simpl. split_and!; [lia | done |].
    exists q. split; [done|]. rewrite Hq, Hrs. constructor.
  - rewrite query_literature_evidence in Hreply by (by rewrite Hrs).
    injection Hreply as <- <-. simpl sources. rewrite Hrs.
    split_and!.
    + rewrite length_map. simpl in *. lia.
    + apply Forall_map, Forall_forall. intros r' _. simpl. split; [done|].
      rewrite str_length_app, length_str_prefix.
      change (String.length "...") with 3%nat. lia.
    + exists q. split; [done|]. rewrite Hrs.
      apply Forall2_fmap_l, Forall_Forall2_diag.
      by apply Forall_forall.
Qed.

Lemma reply_sources_bounded_witness :
  ∃ body sent,
    query_literature (Demo.after_ab (Some Demo.echo)) (Ask (Some "retrieval"))
    = (Reply body, sent)
    ∧ (length (sources body) ≤ 5)%nat.
Proof.
  eexists _, _. split; [by vm_compute|].
  eapply (reply_sources_bounded (Demo.after_ab (Some Demo.echo))
            (Ask (Some "retrieval"))). by vm_compute.
Defined.

End HandlerFacts.

(** ** Persistence, upload and statistics *)

Section Routes.
Import SimpleApp SimpleAppRoutes.





(** An upload that fails leaves the collection and [documents.json] as
    they were; with status 400 nothing at all is changed: no file is
    written. *)
Theorem upload_failure_keeps_collection (extract : extractor) (st st' : site)
    (u : upload) (status : Z) (error : string) :
  upload_document extract st u = (UploadFailure status error, st') →
  site_nav st' = site_nav st
  ∧ site_fs st' = site_fs st
  ∧ (status = 400%Z → st' = st).
Proof.
  unfold upload_document. destruct u as [|filename data].
  - by intros [= <- <- <-].
  - destruct (_ || _); [by intros [= <- <- <-]|].
    destruct (save_error st) as [err|]; [by intros [= <- <- <-]|].
    destruct (extract data) as [texts| |err].
    + by destruct (add_document _ _ _ _ _) as [[doc nav] fs].
    + by destruct (add_document _ _ _ _ _) as [[doc nav] fs].
    + intros [= <- <- <-]. by split_and!.
Qed.

Lemma upload_failure_keeps_collection_witness :
  upload_document DemoRoutes.two_pages DemoRoutes.fresh (File "notes.txt" "x")
  = (UploadFailure 400 "Please select a PDF file", DemoRoutes.fresh)
  ∧ site_nav
      (upload_document DemoRoutes.failing DemoRoutes.fresh
         (File "a.pdf" "x")).2
    = site_nav DemoRoutes.fresh.
Proof.
  split; [reflexivity|].
  eapply (upload_failure_keeps_collection DemoRoutes.failing DemoRoutes.fresh
            _ (File "a.pdf" "x")).
  reflexivity.
Defined.

(** An upload that succeeds had a name ending in [.pdf] whatever the case;
    it stores the bytes under that name, replacing an older file of the same
    name, and appends exactly one document to the collection, whose title is
    the name with its occurrences of [.pdf] removed; the reply reports that
    title and the number of chunks of the document, and the statistics then
    count one more document and that many more chunks. *)
Theorem upload_success_effects (extract : extractor) (st st' : site)
    (u : upload) (message title' : string) (n : nat) :
  upload_document extract st u = (Uploaded message title' n, st') →
  ∃ filename data doc,
    u = File filename data
    ∧ PyStr.endswith (Py.lower filename) ".pdf" = true
    ∧ papers st' = <[filename := data]> (papers st)
    ∧ documents (site_nav st') = documents (site_nav st) ++ [doc]
    ∧ title doc = title' ∧ title' = PyStr.replace filename ".pdf" ""
    ∧ n = length (chunks doc)
    ∧ st_unique_documents (get_stats (site_nav st'))
      = S (st_unique_documents (get_stats (site_nav st)))
    ∧ st_total_chunks (get_stats (site_nav st'))
      = (st_total_chunks (get_stats (site_nav st)) + n)%nat.
Proof.
  unfold upload_document. destruct u as [|filename data]; [done|].
  destruct (String.eqb filename "") eqn:Hname; [done|].
  destruct (PyStr.endswith (Py.lower filename) ".pdf") eqn:Hpdf; [|done].
  simpl. destruct (save_error st) as [err|]; [done|].
  assert (Hadd : ∀ content,
    (let '(doc, nav, fs) :=
       add_document (site_nav st) (site_fs st) filename
         (PyStr.replace filename ".pdf" "") content in
     (Uploaded ("Successfully processed " +:+ filename) (title doc)
        (length (chunks doc)),
      {| site_nav := nav; site_fs := fs;
         papers := <[filename := data]> (papers st); save_error := None |}))
    = (Uploaded message title' n, st') →
    ∃ doc,
      papers st' = <[filename := data]> (papers st)
      ∧ documents (site_nav st') = documents (site_nav st) ++ [doc]
      ∧ title doc = title' ∧ title' = PyStr.replace filename ".pdf" ""
      ∧ n = length (chunks doc)
      ∧ st_unique_documents (get_stats (site_nav st'))
        = S (st_unique_documents (get_stats (site_nav st)))
      ∧ st_total_chunks (get_stats (site_nav st'))
        = (st_total_chunks (get_stats (site_nav st)) + n)%nat).
  { intros content. simpl. intros [= <- <- <- <-]. eexists. simpl.
    split_and!; try done.
    - rewrite length_app. simpl. lia.
    - destruct (site_nav st) as [m docs]. apply total_chunks_snoc. }
  destruct (extract data) as [texts| |err]; [| |done].
  - intros H. destruct (Hadd _ H) as (doc & ?). by exists filename, data, doc.
  - intros H. destruct (Hadd _ H) as (doc & ?). by exists filename, data, doc.
Qed.

Lemma upload_success_effects_witness :
  ∃ doc,
    upload_document DemoRoutes.two_pages DemoRoutes.fresh (File "b.pdf" "x")
    = (Uploaded "Successfully processed b.pdf" "b" 1,
       (upload_document DemoRoutes.two_pages DemoRoutes.fresh
          (File "b.pdf" "x")).2)
    ∧ documents
        (site_nav
           (upload_document DemoRoutes.two_pages DemoRoutes.fresh
              (File "b.pdf" "x")).2)
      = documents (site_nav DemoRoutes.fresh) ++ [doc].
Proof.
  assert (H : upload_document DemoRoutes.two_pages DemoRoutes.fresh
                (File "b.pdf" "x")
              = (Uploaded "Successfully processed b.pdf" "b" 1,
                 (upload_document DemoRoutes.two_pages DemoRoutes.fresh
                    (File "b.pdf" "x")).2)) by reflexivity.
  destruct (upload_success_effects _ _ _ _ _ _ _ H)
    as (filename & data & doc & _ & _ & _ & Hdocs & _).
  exists doc. split; [exact H | exact Hdocs].
Defined.

End Routes.

(** ** Titles of uploads and answers of replies *)

Section RouteFacts.
Import SimpleApp SimpleAppRoutes.

Lemma lower_app (a b : string) :
  Py.lower (a +:+ b) = Py.lower a +:+ Py.lower b.
Proof.
  induction a as [|c a IH]; [done|].
  rewrite str_app_cons. simpl. by rewrite IH, str_app_cons.
Qed.

Lemma substring_all (t : string) : String.substring 0 (String.length t) t = t.
Proof. induction t as [|c t IH]; simpl; [done | by rewrite IH]. Qed.

Lemma substring_skip (x t : string) (m : nat) :
  String.substring (String.length x) m (x +:+ t) = String.substring 0 m t.
Proof.
  induction x as [|c x IH]; [done|]. rewrite str_app_cons. simpl. exact IH.
Qed.

Lemma endswith_app (x suffix : string) :
  PyStr.endswith (x +:+ suffix) suffix = true.
Proof.
  unfold PyStr.endswith. rewrite str_length_app.
  replace (String.length x + String.length suffix - String.length suffix)%nat
    with (String.length x) by lia.
  rewrite substring_skip, substring_all, String.eqb_refl.
  rewrite andb_true_r. apply Nat.leb_le. lia.
Qed.

Lemma prefix_pdf_other (c : ascii) (s : string) :
  c ≠ "."%char → String.prefix ".pdf" (String c s) = false.
Proof.
  intros Hc. cbn [String.prefix]. by destruct (ascii_dec "." c) as [<-|].
Qed.

Lemma replace_keeps_nodot (s ext : string) :
  nodot s = true →
  PyStr.replace (s +:+ ext) ".pdf" "" = s +:+ PyStr.replace ext ".pdf" "".
Proof.
  unfold PyStr.replace. induction s as [|c s IH]; intros Hs; [done|].
  simpl in Hs. apply andb_prop in Hs as [Hc Hs].
  apply negb_true_iff, Ascii.eqb_neq in Hc.
  rewrite !str_app_cons. cbn [PyStr.replace_from].
  rewrite prefix_pdf_other by done. by rewrite IH.
Qed.

(** A file named by a stem without dot followed by [.pdf] is accepted and
    the document is titled by the stem. The same stem followed by [.PDF] is
    accepted too, the test of the extension ignoring case, but the title
    keeps the extension, its removal being case-sensitive. *)
Theorem upload_title (extract : extractor) (st : site) (stem data : string) :
  nodot stem = true →
  save_error st = None →
  (∀ err, extract data ≠ ExtractRaised err) →
  (∃ n st',
     upload_document extract st (File (stem +:+ ".pdf") data)
     = (Uploaded ("Successfully processed " +:+ stem +:+ ".pdf") stem n, st'))
  ∧ (∃ n st',
       upload_document extract st (File (stem +:+ ".PDF") data)
       = (Uploaded ("Successfully processed " +:+ stem +:+ ".PDF")
            (stem +:+ ".PDF") n, st')).
Proof.
  intros Hstem Hsave Hextract.
  assert (Hgo : ∀ ext title',
    Py.lower ext = ".pdf" → ext ≠ "" →
    PyStr.replace (stem +:+ ext) ".pdf" "" = title' →
    ∃ n st',
      upload_document extract st (File (stem +:+ ext) data)
      = (Uploaded ("Successfully processed " +:+ stem +:+ ext) title' n, st')).
  { intros ext title' Hext Hne Htitle. unfold upload_document.
    assert (Hnonempty : String.eqb (stem +:+ ext) "" = false).
    { apply String.eqb_neq. destruct stem; [done|]. by rewrite str_app_cons. }
    rewrite Hnonempty, lower_app, Hext, endswith_app, Hsave. simpl.
    rewrite Htitle.
    destruct (extract data) as [texts| |err]; [| |by destruct (Hextract err)];
      by do 2 eexists. }
  split.
  - apply Hgo; [done | done |].
    rewrite replace_keeps_nodot by done.
    change (PyStr.replace ".pdf" ".pdf" "") with "". apply str_app_nil_r.
  - apply Hgo; [done | done |]. by rewrite replace_keeps_nodot.
Qed.

Lemma upload_title_witness :
  nodot "survey" = true
  ∧ save_error DemoRoutes.fresh = None
  ∧ ∃ n st',
      upload_document DemoRoutes.two_pages DemoRoutes.fresh
        (File ("survey" +:+ ".pdf") "x")
      = (Uploaded ("Successfully processed " +:+ "survey" +:+ ".pdf")
           "survey" n, st').
Proof.
  assert (H1 : nodot "survey" = true) by reflexivity.
  assert (H2 : save_error DemoRoutes.fresh = None) by reflexivity.
  assert (H3 : ∀ err, DemoRoutes.two_pages "x" ≠ ExtractRaised err)
    by discriminate.
  split_and!; [exact H1 | exact H2 |].
  exact (proj1 (upload_title DemoRoutes.two_pages DemoRoutes.fresh
                  "survey" "x" H1 H2 H3)).
Defined.

(** Every reply with status 200 carries an answer that is not empty, in
    both handlers: the fixed message without evidence, the notice that no
    model is set up, the message of the error raised by the backend, the
    text it generated, or the fixed notice when that text is empty. *)
Theorem reply_answer_nonempty (nav : navigator)
    (nav_app : option WebApp.web_app) (req : request) :
  (∀ body sent,
     query_literature nav req = (Reply body, sent) → answer body ≠ "")
  ∧ (∀ body sent,
       WebApp.query_literature nav_app req = (WebApp.Reply body, sent) →
       WebApp.answer body ≠ "").
Proof.
  split; intros body sent.
  - unfold query_literature. destruct req as [err|field]; [done|].
    destruct (Py.strip (default "" field)) as [|c question]; [done|].
    destruct (search_documents nav _ 5) as [|r rs]; [by intros [= <- <-]|].
    unfold generate_answer. destruct (model nav) as [m|].
    + destruct (m _) as [[|d text]|err]; by intros [= <- <-].
    + by intros [= <- <-].
  - unfold WebApp.query_literature. destruct req as [err|field]; [done|].
    destruct (Py.strip (default "" field)) as [|c question]; [done|].
    destruct nav_app as [app|]; [|done].
    destruct (WebApp.retrieve app _ _) as [[|r rs]|err];
      [by intros [= <- <-]| |done].
    unfold WebApp.generate_answer.
    destruct (WebApp.gemini_model app) as [m|].
    + destruct (m _) as [[|d text]|err]; by intros [= <- <-].
    + by intros [= <- <-].
Qed.

End RouteFacts.

Example replace_demo :
  (PyStr.replace "a.pdf.pdf" ".pdf" "", PyStr.replace ".p.pdfdf" ".pdf" "",
   PyStr.replace "x.pdfy" ".pdf" "-", PyStr.replace "A.PDF" ".pdf" "")
  = ("a", ".pdf", "x-y", "A.PDF").
Proof. reflexivity. Qed.

Example endswith_demo :
  (PyStr.endswith "a.PDF" ".pdf", PyStr.endswith (Py.lower "a.PDF") ".pdf",
   PyStr.endswith "pdf" ".pdf", PyStr.endswith ".pdf" ".pdf")
  = (false, true, false, true).
Proof. reflexivity. Qed.

Example pages_text_demo :
  SimpleAppRoutes.pages_text ["Dense retrieval"; "with transformers"]
  = "Dense retrieval" +:+ SimpleApp.nl +:+ "with transformers" +:+ SimpleApp.nl.
Proof. reflexivity. Qed.

Example get_stats_demo :
  SimpleAppRoutes.get_stats (Demo.after_ab None)
  = {| SimpleAppRoutes.st_unique_documents := 2;
       SimpleAppRoutes.st_total_chunks := 2;
       SimpleAppRoutes.section_distribution := {[ "content" := 2%nat ]} |}
  ∧ SimpleAppRoutes.section_distribution
      (SimpleAppRoutes.get_stats (Demo.empty_nav None)) = ∅.
Proof. split; by vm_compute. Qed.
